(** * SveaPark: the gateway service and the two view controllers

    A shallow embedding of [services/geminiService.ts], [ScannerView] and
    [EditView].  Promises are modelled by their settlement ([Settled]);
    an [async] handler is cut at each [await] into the code that runs
    before it and the code that runs once the awaited promise settles.
    React state is a record, set by the [set*] functions; refs are
    fields of the same record; calls into the platform (camera, console,
    model service) are recorded in traces. *)

From Stdlib Require Import String Ascii List Bool Arith ZArith Lia.
Import ListNotations.
Open Scope string_scope.
Set Warnings "-register-all".

(** ** JavaScript values and errors *)

(** The values [JSON.parse] can return.  A number keeps its literal. *)
Inductive JSValue : Type :=
| JNull
| JBool (b : bool)
| JNum (literal : string)
| JStr (s : string)
| JArr (items : list JSValue)
| JObj (fields : list (string * JSValue)).

Record JSError : Type := mkError { name : string; message : string }.

Definition Error (msg : string) : JSError := mkError "Error" msg.
Definition TypeError (msg : string) : JSError := mkError "TypeError" msg.
Definition SyntaxError (msg : string) : JSError := mkError "SyntaxError" msg.

(** How an awaited promise settles. *)
Inductive Settled (A : Type) : Type :=
| Fulfilled (a : A)
| Rejected (e : JSError).
Arguments Fulfilled {A} a.
Arguments Rejected {A} e.

(** Truthiness of a [string | null | undefined] value: the empty string
    is falsy, like the absent one. *)
Definition truthy_str (o : option string) : bool :=
  match o with
  | None => false
  | Some EmptyString => false
  | Some _ => true
  end.

(** A template literal prints an absent value as [undefined]. *)
Definition template (o : option string) : string :=
  match o with
  | Some s => s
  | None => "undefined"
  end.

(** [s.split(',')]: the segments between commas, at least one. *)
Fixpoint split_comma (s : string) : list string :=
  match s with
  | EmptyString => [EmptyString]
  | String c r =>
      if Ascii.eqb c ","%char then EmptyString :: split_comma r
      else match split_comma r with
           | seg :: segs => String c seg :: segs
           | [] => [String c EmptyString]
           end
  end.

(** Property lookup on a parsed value: the last field of that name of
    an object, nothing on any other value. *)
Fixpoint lookup_field (k : string) (fs : list (string * JSValue)) : option JSValue :=
  match fs with
  | [] => None
  | (k', v) :: rest =>
      match lookup_field k rest with
      | Some w => Some w
      | None => if String.eqb k k' then Some v else None
      end
  end.

Definition get_field (v : JSValue) (k : string) : option JSValue :=
  match v with
  | JObj fs => lookup_field k fs
  | _ => None
  end.

Definition has_field (v : JSValue) (k : string) : bool :=
  match get_field v k with Some _ => true | None => false end.

(** ** types.ts *)

(** The fields [ParkingAnalysis] declares without [?]. *)
Definition requiredFields : list string := ["status"; "summary"; "details"].

Definition hasRequiredFields (v : JSValue) : bool :=
  forallb (has_field v) requiredFields.

(** ** services/geminiService.ts *)

Module GeminiService.

(** The parts of the SDK's request and response types the service
    touches.  Every property the SDK declares optional is an option. *)
Record Blob : Type := mkBlob { data : option string; mimeType : option string }.
Record Part : Type := mkPart { text : option string; inlineData : option Blob }.
Record Content : Type := mkContent { parts : option (list Part) }.
Record Candidate : Type := mkCandidate { content : option Content }.

(** [response.text] is a getter of the SDK; the service reads it as a
    property, so it is a field here. *)
Record GenerateContentResponse : Type := mkResponse {
  candidates : option (list Candidate);
  response_text : option string
}.

Inductive SchemaType : Type :=
| STRING
| ARRAY (items : SchemaType)
| OBJECT (properties : list (string * SchemaType)) (required : list string).

Record Config : Type := mkConfig {
  systemInstruction : string;
  responseMimeType : string;
  responseSchema : SchemaType
}.

Record Request : Type := mkRequest {
  model : string;
  contents : list Part;
  config : option Config
}.

(** The SDK client as the service meets it: [new GoogleGenAI(...)] may
    throw, and [ai.models.generateContent(request)] settles. *)
Record GoogleGenAI : Type := mkGenAI {
  construct : option JSError;
  generateContent : Request -> Settled GenerateContentResponse
}.

(** What a call of the service does: the requests it transmitted, what
    it wrote with [console.error] (label and error), and how its
    promise settles. *)
Record Call (A : Type) : Type := mkCall {
  sent : list Request;
  console : list (string * JSError);
  outcome : Settled A
}.
Arguments mkCall {A} sent console outcome.
Arguments sent {A} c.
Arguments console {A} c.
Arguments outcome {A} c.

(** [{ inlineData: { data: base64Image.split(',')[1], mimeType: "image/jpeg" } }] *)
Definition imagePart (base64Image : string) : Part :=
  mkPart None (Some (mkBlob (nth_error (split_comma base64Image) 1) (Some "image/jpeg"))).

Definition textPart (t : string) : Part := mkPart (Some t) None.

Definition analysisQuestion : string :=
  "Is parking allowed here right now for a private car? Respond in English but base the logic on Swedish laws.".

Definition analysisSchema : SchemaType :=
  OBJECT
    [ ("status", STRING);
      ("summary", STRING);
      ("details", ARRAY STRING);
      ("durationLimit", STRING);
      ("costInfo", STRING);
      ("timeWindow", STRING) ]
    ["status"; "summary"; "details"].

(** The request of [analyzeParkingSign].  [instruction] is the value of
    the [systemInstruction] template literal, which embeds the clock
    reading of the call. *)
Definition analyzeRequest (instruction base64Image : string) : Request :=
  mkRequest "gemini-3-flash-preview"
    [imagePart base64Image; textPart analysisQuestion]
    (Some (mkConfig instruction "application/json" analysisSchema)).

(** The request of [editImage]. *)
Definition editRequest (base64Image prompt : string) : Request :=
  mkRequest "gemini-2.5-flash-image"
    [imagePart base64Image; textPart prompt]
    None.

(** The [for (const part of candidate.content.parts)] loop of
    [editImage]: the value returned from inside the loop, if any. *)
Fixpoint scanParts (ps : list Part) : option string :=
  match ps with
  | [] => None
  | part :: rest =>
      match inlineData part with
      | Some blob => Some ("data:image/png;base64," ++ template (data blob))
      | None => scanParts rest
      end
  end.

(** The body of the [try] block of [editImage] after the [await]:
    a returned string, or the error thrown. *)
Definition editImage_try (response : GenerateContentResponse) : JSError + string :=
  let noImage := inl (Error "No image data returned from model") in
  match candidates response with
  | Some (candidate :: _) =>
      match content candidate with
      | None => inl (TypeError "Cannot read properties of undefined (reading 'parts')")
      | Some c =>
          match parts c with
          | None => inl (TypeError "candidate.content.parts is not iterable")
          | Some ps =>
              match scanParts ps with
              | Some url => inr url
              | None => noImage
              end
          end
      end
  | _ => noImage
  end.

Definition editImage (ai : GoogleGenAI) (base64Image prompt : string) : Call string :=
  match construct ai with
  | Some e => mkCall [] [] (Rejected e)
  | None =>
      let request := editRequest base64Image prompt in
      let caught (error : JSError) :=
        mkCall [request] [("Image editing error:", error)]
               (Rejected (Error "Failed to edit image")) in
      match generateContent ai request with
      | Rejected error => caught error
      | Fulfilled response =>
          match editImage_try response with
          | inr url => mkCall [request] [] (Fulfilled url)
          | inl error => caught error
          end
      end
  end.

Section Analyze.

(** [String.prototype.trim] and [JSON.parse] ([None] when it throws). *)
Variable trim : string -> string.
Variable JSON_parse : string -> option JSValue.

(** The body of the [try] block of [analyzeParkingSign] after the
    [await]. *)
Definition analyzeParkingSign_try (response : GenerateContentResponse) : JSError + JSValue :=
  match response_text response with
  | None => inl (TypeError "Cannot read properties of undefined (reading 'trim')")
  | Some t =>
      let jsonStr := trim t in
      match JSON_parse (if truthy_str (Some jsonStr) then jsonStr else "{}") with
      | Some v => inr v
      | None => inl (SyntaxError "Unexpected token in JSON")
      end
  end.

Definition analyzeParkingSign (ai : GoogleGenAI) (instruction base64Image : string)
  : Call JSValue :=
  match construct ai with
  | Some e => mkCall [] [] (Rejected e)
  | None =>
      let request := analyzeRequest instruction base64Image in
      let caught (error : JSError) :=
        mkCall [request] [("Analysis error:", error)]
               (Rejected (Error "Failed to analyze sign")) in
      match generateContent ai request with
      | Rejected error => caught error
      | Fulfilled response =>
          match analyzeParkingSign_try response with
          | inr v => mkCall [request] [] (Fulfilled v)
          | inl error => caught error
          end
      end
  end.

End Analyze.

(** A client whose constructor succeeds and whose call resolves with
    [response], whatever the request. *)
Definition respondsWith (response : GenerateContentResponse) : GoogleGenAI :=
  mkGenAI None (fun _ => Fulfilled response).

(** A client whose call is rejected: a transport failure. *)
Definition failsWith (e : JSError) : GoogleGenAI :=
  mkGenAI None (fun _ => Rejected e).

End GeminiService.

(** ** A reference platform

    [String.prototype.trim] restricted to the ASCII white space, and
    [JSON.parse] for the JSON grammar over ASCII text: a number keeps its
    literal, and a [\u] escape is accepted below U+0080 only.  The
    service is stated over any [trim] and [JSON.parse]; these two give
    it something to run on. *)

Module Reference.

Definition quote : ascii := "034"%char.
Definition backslash : ascii := "092"%char.

Definition is_space (c : ascii) : bool :=
  let n := nat_of_ascii c in
  (((9 <=? n) && (n <=? 13)) || (n =? 32))%nat.

Fixpoint trimStart (s : string) : string :=
  match s with
  | EmptyString => EmptyString
  | String c r => if is_space c then trimStart r else s
  end.

Fixpoint trimEnd (s : string) : string :=
  match s with
  | EmptyString => EmptyString
  | String c r =>
      match trimEnd r with
      | EmptyString => if is_space c then EmptyString else String c EmptyString
      | r' => String c r'
      end
  end.

Definition trim (s : string) : string := trimEnd (trimStart s).

(** JSON's own white space: tab, line feed, carriage return, space. *)
Definition is_ws (c : ascii) : bool :=
  let n := nat_of_ascii c in
  ((n =? 9) || (n =? 10) || (n =? 13) || (n =? 32))%nat.

Fixpoint skip_ws (s : string) : string :=
  match s with
  | EmptyString => EmptyString
  | String c r => if is_ws c then skip_ws r else s
  end.

Definition is_digit (c : ascii) : bool :=
  let n := nat_of_ascii c in ((48 <=? n) && (n <=? 57))%nat.

(** The leading digits of [s] and what follows them. *)
Fixpoint digits (s : string) : string * string :=
  match s with
  | EmptyString => (EmptyString, EmptyString)
  | String c r =>
      if is_digit c then let (d, rest) := digits r in (String c d, rest)
      else (EmptyString, s)
  end.

Definition starts (c : ascii) (s : string) : option string :=
  match s with
  | String c' r => if Ascii.eqb c c' then Some r else None
  | EmptyString => None
  end.

Definition starts_any (cs : list ascii) (s : string) : option (ascii * string) :=
  match s with
  | String c' r => if existsb (Ascii.eqb c') cs then Some (c', r) else None
  | EmptyString => None
  end.

(** [-? int frac? exp?]: the literal read and the rest. *)
Definition parse_number (s : string) : option (string * string) :=
  let (sign, s1) := match starts "-" s with
                    | Some r => ("-", r)
                    | None => (EmptyString, s)
                    end in
  let (int, s2) := digits s1 in
  match int with
  | EmptyString => None
  | String "0" (String _ _) => None
  | _ =>
      let frac := match starts "." s2 with
                  | Some r =>
                      let (d, r') := digits r in
                      match d with
                      | EmptyString => None
                      | _ => Some ("." ++ d, r')
                      end
                  | None => Some (EmptyString, s2)
                  end in
      match frac with
      | None => None
      | Some (f, s3) =>
          match starts_any ["e"; "E"]%char s3 with
          | None => Some (sign ++ int ++ f, s3)
          | Some (e, r) =>
              let (sg, r1) := match starts_any ["+"; "-"]%char r with
                              | Some (c, r1) => (String c EmptyString, r1)
                              | None => (EmptyString, r)
                              end in
              let (d, r2) := digits r1 in
              match d with
              | EmptyString => None
              | _ => Some (sign ++ int ++ f ++ String e sg ++ d, r2)
              end
          end
      end
  end.

Definition hexval (c : ascii) : option nat :=
  let n := nat_of_ascii c in
  if ((48 <=? n) && (n <=? 57))%nat then Some (n - 48)
  else if ((65 <=? n) && (n <=? 70))%nat then Some (n - 55)
  else if ((97 <=? n) && (n <=? 102))%nat then Some (n - 87)
  else None.

Definition hex4 (a b c d : ascii) : option nat :=
  match hexval a, hexval b, hexval c, hexval d with
  | Some x, Some y, Some z, Some w => Some (((x * 16 + y) * 16 + z) * 16 + w)
  | _, _, _, _ => None
  end.

(** The character a one-letter escape stands for. *)
Definition unescape (e : ascii) : option ascii :=
  if Ascii.eqb e quote then Some quote
  else if Ascii.eqb e backslash then Some backslash
  else if Ascii.eqb e "/" then Some "/"%char
  else if Ascii.eqb e "b" then Some "008"%char
  else if Ascii.eqb e "f" then Some "012"%char
  else if Ascii.eqb e "n" then Some "010"%char
  else if Ascii.eqb e "r" then Some "013"%char
  else if Ascii.eqb e "t" then Some "009"%char
  else None.

Definition consChar (c : ascii) (r : option (string * string)) : option (string * string) :=
  match r with
  | Some (str, rest) => Some (String c str, rest)
  | None => None
  end.

(** The characters of a string literal, after its opening quote. *)
Fixpoint parse_chars (s : string) : option (string * string) :=
  match s with
  | EmptyString => None
  | String c r =>
      if Ascii.eqb c quote then Some (EmptyString, r)
      else if Ascii.eqb c backslash then
        match r with
        | EmptyString => None
        | String e r1 =>
            match unescape e with
            | Some d => consChar d (parse_chars r1)
            | None =>
                if Ascii.eqb e "u" then
                  match r1 with
                  | String h1 (String h2 (String h3 (String h4 r2))) =>
                      match hex4 h1 h2 h3 h4 with
                      | Some n =>
                          if (n <? 128)%nat then consChar (ascii_of_nat n) (parse_chars r2)
                          else None
                      | None => None
                      end
                  | _ => None
                  end
                else None
            end
        end
      else if (nat_of_ascii c <? 32)%nat then None
      else consChar c (parse_chars r)
  end.

Fixpoint strip_prefix (p s : string) : option string :=
  match p, s with
  | EmptyString, _ => Some s
  | String a p', String b s' => if Ascii.eqb a b then strip_prefix p' s' else None
  | String _ _, EmptyString => None
  end.

Fixpoint parse_value (fuel : nat) (s : string) {struct fuel} : option (JSValue * string) :=
  match fuel with
  | 0 => None
  | S fuel' =>
      match skip_ws s with
      | EmptyString => None
      | String c r as s0 =>
          if Ascii.eqb c "{" then
            match starts "}" (skip_ws r) with
            | Some r' => Some (JObj [], r')
            | None =>
                match parse_members fuel' r with
                | Some (fs, r') => Some (JObj fs, r')
                | None => None
                end
            end
          else if Ascii.eqb c "[" then
            match starts "]" (skip_ws r) with
            | Some r' => Some (JArr [], r')
            | None =>
                match parse_elements fuel' r with
                | Some (vs, r') => Some (JArr vs, r')
                | None => None
                end
            end
          else if Ascii.eqb c quote then
            match parse_chars r with
            | Some (str, r') => Some (JStr str, r')
            | None => None
            end
          else
            match strip_prefix "true" s0, strip_prefix "false" s0, strip_prefix "null" s0 with
            | Some r', _, _ => Some (JBool true, r')
            | _, Some r', _ => Some (JBool false, r')
            | _, _, Some r' => Some (JNull, r')
            | None, None, None =>
                match parse_number s0 with
                | Some (lit, r') => Some (JNum lit, r')
                | None => None
                end
            end
      end
  end
with parse_members (fuel : nat) (s : string) {struct fuel}
  : option (list (string * JSValue) * string) :=
  match fuel with
  | 0 => None
  | S fuel' =>
      match starts quote (skip_ws s) with
      | None => None
      | Some r =>
          match parse_chars r with
          | None => None
          | Some (k, r1) =>
              match starts ":" (skip_ws r1) with
              | None => None
              | Some r2 =>
                  match parse_value fuel' r2 with
                  | None => None
                  | Some (v, r3) =>
                      match starts "," (skip_ws r3), starts "}" (skip_ws r3) with
                      | Some r4, _ =>
                          match parse_members fuel' r4 with
                          | Some (fs, r5) => Some ((k, v) :: fs, r5)
                          | None => None
                          end
                      | None, Some r4 => Some ([(k, v)], r4)
                      | None, None => None
                      end
                  end
              end
          end
      end
  end
with parse_elements (fuel : nat) (s : string) {struct fuel}
  : option (list JSValue * string) :=
  match fuel with
  | 0 => None
  | S fuel' =>
      match parse_value fuel' s with
      | None => None
      | Some (v, r) =>
          match starts "," (skip_ws r), starts "]" (skip_ws r) with
          | Some r1, _ =>
              match parse_elements fuel' r1 with
              | Some (vs, r2) => Some (v :: vs, r2)
              | None => None
              end
          | None, Some r1 => Some ([v], r1)
          | None, None => None
          end
      end
  end.

(** One value, with nothing but white space after it. *)
Definition JSON_parse (s : string) : option JSValue :=
  match parse_value (2 * String.length s + 2) s with
  | Some (v, rest) =>
      match skip_ws rest with
      | EmptyString => Some v
      | String _ _ => None
      end
  | None => None
  end.

(** A string literal with [s] between quotes ([s] needs no escape). *)
Definition quoted (s : string) : string :=
  String quote s ++ String quote EmptyString.

End Reference.


(** Truthiness of a parsed value.  A number is falsy when it is zero,
    that is when the literal [JSON.parse] read is rounded to zero:
    written [m] times a power of ten, either [m] is zero or the value
    is at most half the least positive double, 2^-1075. *)
Definition digitValue (c : ascii) : option Z :=
  let n := nat_of_ascii c in
  if ((48 <=? n) && (n <=? 57))%nat then Some (Z.of_nat (n - 48)) else None.

(** The leading digits of [s] appended to the number [acc], how many
    they are, and what follows them. *)
Fixpoint readDigits (acc : Z) (s : string) : Z * nat * string :=
  match s with
  | EmptyString => (acc, 0, EmptyString)
  | String c r =>
      match digitValue c with
      | Some d =>
          let '(m, n, rest) := readDigits (acc * 10 + d)%Z r in (m, S n, rest)
      | None => (acc, 0, s)
      end
  end.

(** A number literal as a mantissa and a power of ten, its sign left
    out: [-12.5e-3] is 125 and -4. *)
Definition literalValue (lit : string) : Z * Z :=
  let unsigned := match lit with
                  | String c r => if Ascii.eqb c "-" then r else lit
                  | EmptyString => lit
                  end in
  let '(whole, _, s1) := readDigits 0%Z unsigned in
  let '(mantissa, fractionDigits, s2) :=
    match s1 with
    | String c r => if Ascii.eqb c "." then readDigits whole r else (whole, 0, s1)
    | EmptyString => (whole, 0, s1)
    end in
  let exponent :=
    match s2 with
    | String c r =>
        if Ascii.eqb c "e" || Ascii.eqb c "E" then
          match r with
          | String sign r' =>
              if Ascii.eqb sign "-" then (- fst (fst (readDigits 0%Z r')))%Z
              else if Ascii.eqb sign "+" then fst (fst (readDigits 0%Z r'))
              else fst (fst (readDigits 0%Z r))
          | EmptyString => 0%Z
          end
        else 0%Z
    | EmptyString => 0%Z
    end in
  (mantissa, (exponent - Z.of_nat fractionDigits)%Z).

Definition roundsToZero (lit : string) : bool :=
  let (m, k) := literalValue lit in
  (m =? 0)%Z || ((k <? 0)%Z && (m * 2 ^ 1075 <=? 10 ^ (- k))%Z).

Definition truthy (v : JSValue) : bool :=
  match v with
  | JNull => false
  | JBool b => b
  | JNum lit => negb (roundsToZero lit)
  | JStr EmptyString => false
  | JStr _ => true
  | JArr _ => true
  | JObj _ => true
  end.

Notation "c |> f" := (f c) (at level 50, left associativity, only parsing).

(** ** components/ScannerView.tsx *)

Module ScannerView.

(** A stream is known by its tracks. *)
Record MediaStream : Type := mkStream { getTracks : list nat }.

(** A mounted [<video>] and its [srcObject]. *)
Record HTMLVideoElement : Type := mkVideo { srcObject : option MediaStream }.

Inductive VideoConstraints : Type :=
| AnyVideo
| VideoSpec (facingMode : string) (idealWidth idealHeight : nat).

Record MediaStreamConstraints : Type := mkConstraints {
  video : VideoConstraints;
  audio : bool
}.

(** [navigator]: whether [mediaDevices.getUserMedia] exists, and how a
    call of it settles. *)
Record Navigator : Type := mkNavigator {
  mediaDevices : bool;
  getUserMedia : MediaStreamConstraints -> Settled MediaStream
}.

(** Calls out of the component, in the order they are made. *)
Inductive Event : Type :=
| GetUserMedia (constraints : MediaStreamConstraints)
| TrackStop (track : nat)
| AnalyzeParkingSign (base64 : string)
| ConsoleWarn (label : string) (e : JSError)
| ConsoleError (label : string) (e : JSError).

(** The six [useState] cells, the refs' [current] values, and the trace
    of calls made so far. *)
Record Component : Type := mkComponent {
  loading : bool;
  result : JSValue;
  error : option string;
  isCameraReady : bool;
  capturedImage : option string;
  cameraNotFound : bool;
  videoRef : option HTMLVideoElement;
  canvasRef : bool;
  streamRef : option MediaStream;
  trace : list Event
}.

Definition setLoading (v : bool) (c : Component) : Component :=
  mkComponent v (result c) (error c) (isCameraReady c) (capturedImage c)
    (cameraNotFound c) (videoRef c) (canvasRef c) (streamRef c) (trace c).

Definition setResult (v : JSValue) (c : Component) : Component :=
  mkComponent (loading c) v (error c) (isCameraReady c) (capturedImage c)
    (cameraNotFound c) (videoRef c) (canvasRef c) (streamRef c) (trace c).

Definition setError (v : option string) (c : Component) : Component :=
  mkComponent (loading c) (result c) v (isCameraReady c) (capturedImage c)
    (cameraNotFound c) (videoRef c) (canvasRef c) (streamRef c) (trace c).

Definition setIsCameraReady (v : bool) (c : Component) : Component :=
  mkComponent (loading c) (result c) (error c) v (capturedImage c) (cameraNotFound c)
    (videoRef c) (canvasRef c) (streamRef c) (trace c).

Definition setCapturedImage (v : option string) (c : Component) : Component :=
  mkComponent (loading c) (result c) (error c) (isCameraReady c) v (cameraNotFound c)
    (videoRef c) (canvasRef c) (streamRef c) (trace c).

Definition setCameraNotFound (v : bool) (c : Component) : Component :=
  mkComponent (loading c) (result c) (error c) (isCameraReady c) (capturedImage c) v
    (videoRef c) (canvasRef c) (streamRef c) (trace c).

Definition set_videoRef (v : option HTMLVideoElement) (c : Component) : Component :=
  mkComponent (loading c) (result c) (error c) (isCameraReady c) (capturedImage c)
    (cameraNotFound c) v (canvasRef c) (streamRef c) (trace c).

Definition set_canvasRef (v : bool) (c : Component) : Component :=
  mkComponent (loading c) (result c) (error c) (isCameraReady c) (capturedImage c)
    (cameraNotFound c) (videoRef c) v (streamRef c) (trace c).

Definition set_streamRef (v : option MediaStream) (c : Component) : Component :=
  mkComponent (loading c) (result c) (error c) (isCameraReady c) (capturedImage c)
    (cameraNotFound c) (videoRef c) (canvasRef c) v (trace c).

Definition set_trace (v : list Event) (c : Component) : Component :=
  mkComponent (loading c) (result c) (error c) (isCameraReady c) (capturedImage c)
    (cameraNotFound c) (videoRef c) (canvasRef c) (streamRef c) v.

Definition emit (evs : list Event) (c : Component) : Component :=
  set_trace (trace c ++ evs) c.

(** The component as first rendered: the [<video>] and the [<canvas>]
    are mounted before the effect runs. *)
Definition mounted : Component :=
  mkComponent false JNull None false None false (Some (mkVideo None)) true None [].

Definition preferredConstraints : MediaStreamConstraints :=
  mkConstraints (VideoSpec "environment" 1280 720) false.

Definition fallbackConstraints : MediaStreamConstraints :=
  mkConstraints AnyVideo false.

Definition stopCamera (c : Component) : Component :=
  match streamRef c with
  | Some stream =>
      c |> emit (map TrackStop (getTracks stream))
        |> set_streamRef None
        |> setIsCameraReady false
  | None => c |> setIsCameraReady false
  end.

(** The [if (videoRef.current)] block at the end of the outer [try]. *)
Definition attachStream (stream : MediaStream) (c : Component) : Component :=
  match videoRef c with
  | Some _ =>
      c |> set_videoRef (Some (mkVideo (Some stream)))
        |> set_streamRef (Some stream)
        |> setIsCameraReady true
        |> setError None
  | None => c
  end.

(** The message the outer [catch] chooses from [err.name]. *)
Definition cameraErrorMessage (errName : string) : string :=
  if String.eqb errName "NotFoundError" || String.eqb errName "DevicesNotFoundError" then
    "No camera found on this device."
  else if String.eqb errName "NotAllowedError" || String.eqb errName "PermissionDeniedError" then
    "Camera permission denied. Please enable it in your settings."
  else
    "Unable to access camera. Please use the gallery instead.".

(** [startCamera] up to its first [await].  The boolean tells whether
    it is suspended on [getUserMedia] (true) or has returned. *)
Definition startCamera_begin (nav : Navigator) (c : Component) : Component * bool :=
  let c := c |> setCameraNotFound false |> setError None in
  if negb (mediaDevices nav) then
    (c |> setError (Some "Your browser does not support camera access.")
       |> setCameraNotFound true,
     false)
  else
    (c |> stopCamera |> emit [GetUserMedia preferredConstraints], true).

(** [startCamera] once the preferred request has settled: it attaches
    the stream and returns, or is suspended on the fallback request. *)
Definition startCamera_preferred (r : Settled MediaStream) (c : Component)
  : Component * bool :=
  match r with
  | Fulfilled stream => (attachStream stream c, false)
  | Rejected e =>
      (c |> emit [ConsoleWarn
                    "Preferred camera constraints failed, falling back to simple video constraint."
                    e;
                  GetUserMedia fallbackConstraints],
       true)
  end.

(** [startCamera] once the fallback request has settled. *)
Definition startCamera_fallback (r : Settled MediaStream) (c : Component) : Component :=
  match r with
  | Fulfilled stream => attachStream stream c
  | Rejected e2 =>
      c |> emit [ConsoleError "All camera constraints failed:" e2;
                 ConsoleError "Camera access error:" e2]
        |> setCameraNotFound true
        |> setError (Some (cameraErrorMessage (name e2)))
  end.

(** A suspended [startCamera] run to its end. *)
Definition startCamera_resume (nav : Navigator) (c : Component) : Component :=
  match startCamera_preferred (getUserMedia nav preferredConstraints) c with
  | (c1, false) => c1
  | (c1, true) => startCamera_fallback (getUserMedia nav fallbackConstraints) c1
  end.

(** [startCamera] from call to completion, nothing else running in
    between. *)
Definition startCamera (nav : Navigator) (c : Component) : Component :=
  match startCamera_begin nav c with
  | (c1, false) => c1
  | (c1, true) => startCamera_resume nav c1
  end.

Definition analysisFailedMessage : string :=
  "AI could not interpret the sign. Ensure it's well-lit and clearly visible.".

(** [processImage] up to its [await]: the call of [analyzeParkingSign]
    is the last thing it does. *)
Definition processImage_begin (base64 : string) (c : Component) : Component :=
  c |> setCapturedImage (Some base64)
    |> setLoading true
    |> setError None
    |> setResult JNull
    |> stopCamera
    |> emit [AnalyzeParkingSign base64].

(** [processImage] once the analysis has settled.  [seen] is the value
    of [cameraNotFound] in the render this [processImage] closes over.
    [startCamera()] is called without [await]: its code up to its first
    [await] runs here, before the [finally] block; the boolean tells
    whether it is left suspended. *)
Definition processImage_settle (seen : bool) (nav : Navigator)
    (r : Settled JSValue) (c : Component) : Component * bool :=
  let (c1, suspended) :=
    match r with
    | Fulfilled analysis => (c |> setResult analysis, false)
    | Rejected _ =>
        let c1 := c |> setError (Some analysisFailedMessage) in
        if negb seen then startCamera_begin nav c1 else (c1, false)
    end in
  (c1 |> setLoading false, suspended).

(** [processImage] from call to quiescence: the analysis settles with
    [r], then a restarted camera settles, nothing else in between. *)
Definition processImage (seen : bool) (nav : Navigator) (r : Settled JSValue)
    (base64 : string) (c : Component) : Component :=
  match processImage_settle seen nav r (processImage_begin base64 c) with
  | (c1, false) => c1
  | (c1, true) => startCamera_resume nav c1
  end.

(** [handleCapture]: [context] tells whether [getContext('2d')] gave a
    context, [frame] is what [canvas.toDataURL('image/jpeg', 0.8)]
    returns.  The result is up to the [await] inside [processImage]. *)
Definition handleCapture (context : bool) (frame : string) (c : Component) : Component :=
  match videoRef c, canvasRef c with
  | Some _, true => if context then processImage_begin frame c else c
  | _, _ => c
  end.

(** [handleFileUpload], at [onloadend]: [file] is the data URL read
    from [e.target.files?.[0]], if there is a file. *)
Definition handleFileUpload (file : option string) (c : Component) : Component :=
  match file with
  | None => c
  | Some dataURL => processImage_begin dataURL c
  end.

Definition handleReset (seen : bool) (nav : Navigator) (c : Component) : Component * bool :=
  let c := c |> setCapturedImage None |> setResult JNull |> setError None in
  if negb seen then startCamera_begin nav c else (c, false).

(** *** What the render presents *)

(** [{!result && !error && !loading && !cameraNotFound && (...)}]:
    the panel holding the gallery button and the capture button. *)
Definition showsCapturePanel (c : Component) : bool :=
  negb (truthy (result c)) && negb (truthy_str (error c))
  && negb (loading c) && negb (cameraNotFound c).

(** [disabled={!isCameraReady}] *)
Definition captureDisabled (c : Component) : bool := negb (isCameraReady c).

Definition showsVideo (c : Component) : bool := negb (cameraNotFound c).

Definition showsGalleryFallback (c : Component) : bool :=
  cameraNotFound c && negb (truthy_str (capturedImage c)).

Definition showsLoadingOverlay (c : Component) : bool := loading c.

Definition showsResultPanel (c : Component) : bool := truthy (result c).

Definition showsErrorPanel (c : Component) : bool := truthy_str (error c).

Definition showsRetryCamera (c : Component) : bool :=
  truthy_str (error c) && negb (cameraNotFound c).

(** A click on the capture button: [handleCapture] runs only when the
    button is in the document and not disabled. *)
Definition clickCapture (context : bool) (frame : string) (c : Component)
  : option Component :=
  if showsCapturePanel c && negb (captureDisabled c)
  then Some (handleCapture context frame c)
  else None.

(** The calls of [analyzeParkingSign] in a trace. *)
Definition analyzeCalls (evs : list Event) : list string :=
  flat_map (fun e => match e with AnalyzeParkingSign b => [b] | _ => [] end) evs.

Definition video_eqb (a b : VideoConstraints) : bool :=
  match a, b with
  | AnyVideo, AnyVideo => true
  | VideoSpec f w h, VideoSpec f' w' h' => String.eqb f f' && Nat.eqb w w' && Nat.eqb h h'
  | _, _ => false
  end.

Definition constraints_eqb (a b : MediaStreamConstraints) : bool :=
  video_eqb (video a) (video b) && Bool.eqb (audio a) (audio b).

(** How many times [getUserMedia] is called with [k] in a trace. *)
Definition attempts (k : MediaStreamConstraints) (evs : list Event) : nat :=
  List.length (filter (fun e => match e with
                                | GetUserMedia k' => constraints_eqb k k'
                                | _ => false
                                end) evs).

(** The tracks the component holds through [streamRef]. *)
Definition heldTracks (c : Component) : list nat :=
  match streamRef c with
  | Some stream => getTracks stream
  | None => []
  end.

End ScannerView.

(** ** components/EditView.tsx *)

Module EditView.

(** Calls out of the component. *)
Inductive Event : Type :=
| EditImage (base64 prompt : string).

Record Component : Type := mkComponent {
  originalImage : option string;
  editedImage : option string;
  prompt : string;
  loading : bool;
  error : option string;
  trace : list Event
}.

Definition setOriginalImage (v : option string) (c : Component) : Component :=
  mkComponent v (editedImage c) (prompt c) (loading c) (error c) (trace c).

Definition setEditedImage (v : option string) (c : Component) : Component :=
  mkComponent (originalImage c) v (prompt c) (loading c) (error c) (trace c).

Definition setPrompt (v : string) (c : Component) : Component :=
  mkComponent (originalImage c) (editedImage c) v (loading c) (error c) (trace c).

Definition setLoading (v : bool) (c : Component) : Component :=
  mkComponent (originalImage c) (editedImage c) (prompt c) v (error c) (trace c).

Definition setError (v : option string) (c : Component) : Component :=
  mkComponent (originalImage c) (editedImage c) (prompt c) (loading c) v (trace c).

Definition set_trace (v : list Event) (c : Component) : Component :=
  mkComponent (originalImage c) (editedImage c) (prompt c) (loading c) (error c) v.

Definition emit (evs : list Event) (c : Component) : Component :=
  set_trace (trace c ++ evs) c.

Definition mounted : Component :=
  mkComponent None None EmptyString false None [].

Definition editFailedMessage : string :=
  "AI was unable to edit the image. Try a simpler prompt.".

(** [handleFileChange], at [onloadend]. *)
Definition handleFileChange (file : option string) (c : Component) : Component :=
  match file with
  | None => c
  | Some dataURL =>
      c |> setOriginalImage (Some dataURL) |> setEditedImage None |> setError None
  end.

Definition reset (c : Component) : Component :=
  c |> setOriginalImage None |> setEditedImage None |> setPrompt EmptyString
    |> setError None.

(** [handleEdit] once [editImage] has settled. *)
Definition handleEdit_settle (r : Settled string) (c : Component) : Component :=
  match r with
  | Fulfilled url => c |> setEditedImage (Some url) |> setLoading false
  | Rejected _ => c |> setError (Some editFailedMessage) |> setLoading false
  end.

Section Trim.

Variable trim : string -> string.

(** [handleEdit] up to its [await]; the boolean tells whether
    [editImage] was called. *)
Definition handleEdit_begin (c : Component) : Component * bool :=
  match originalImage c with
  | Some image =>
      if negb (truthy_str (Some image)) || negb (truthy_str (Some (trim (prompt c))))
      then (c, false)
      else (c |> setLoading true |> setError None
              |> emit [EditImage image (prompt c)],
            true)
  | None => (c, false)
  end.

(** *** What the render presents *)

(** [!originalImage ? <chooser> : <workspace>] *)
Definition showsWorkspace (c : Component) : bool := truthy_str (originalImage c).

(** [disabled={loading || !prompt.trim()}] *)
Definition applyDisabled (c : Component) : bool :=
  loading c || negb (truthy_str (Some (trim (prompt c)))).

(** A click on Apply Changes: [handleEdit] runs only when the button is
    in the document and not disabled. *)
Definition clickApply (c : Component) : option (Component * bool) :=
  if showsWorkspace c && negb (applyDisabled c)
  then Some (handleEdit_begin c)
  else None.

(** *** The view over time

    The component together with the number of [editImage] calls that
    have been made and have not settled yet. *)
Record Session : Type := mkSession { view : Component; inFlight : nat }.

Inductive step : Session -> Session -> Prop :=
| step_apply : forall s c' launched,
    clickApply (view s) = Some (c', launched) ->
    step s (mkSession c' (inFlight s + (if launched then 1 else 0)))
| step_settle : forall s r,
    0 < inFlight s ->
    step s (mkSession (handleEdit_settle r (view s)) (inFlight s - 1))
| step_reset : forall s,
    showsWorkspace (view s) = true ->
    step s (mkSession (reset (view s)) (inFlight s))
| step_file : forall s file,
    showsWorkspace (view s) = false ->
    step s (mkSession (handleFileChange file (view s)) (inFlight s))
| step_prompt : forall s typed,
    showsWorkspace (view s) = true ->
    step s (mkSession (setPrompt typed (view s)) (inFlight s)).

Inductive reachable : Session -> Prop :=
| reach_mounted : reachable (mkSession mounted 0)
| reach_step : forall s s', reachable s -> step s s' -> reachable s'.

End Trim.

End EditView.

(** ** Vocabulary of the statements *)

(** The text after the first comma of [s], if [s] has a comma. *)
Fixpoint afterFirstComma (s : string) : option string :=
  match s with
  | EmptyString => None
  | String c r => if Ascii.eqb c ","%char then Some r else afterFirstComma r
  end.

(** The text of [s] before its first comma, all of [s] if it has none. *)
Fixpoint uptoComma (s : string) : string :=
  match s with
  | EmptyString => EmptyString
  | String c r => if Ascii.eqb c ","%char then EmptyString else String c (uptoComma r)
  end.

(** The inline data of the parts of the requests, in order. *)
Definition imagePayloads (reqs : list GeminiService.Request) : list GeminiService.Blob :=
  flat_map (fun req =>
    flat_map (fun p => match GeminiService.inlineData p with
                       | Some b => [b]
                       | None => []
                       end) (GeminiService.contents req)) reqs.

(** The ordered content parts of a response: those of its first
    candidate, when it has one with content and parts. *)
Definition contentParts (response : GeminiService.GenerateContentResponse)
  : option (list GeminiService.Part) :=
  match GeminiService.candidates response with
  | Some (candidate :: _) =>
      match GeminiService.content candidate with
      | Some c => GeminiService.parts c
      | None => None
      end
  | _ => None
  end.

(** The same response with every declared MIME type rewritten by [f]. *)
Definition retagPart (f : option string -> option string) (p : GeminiService.Part)
  : GeminiService.Part :=
  GeminiService.mkPart (GeminiService.text p)
    (option_map (fun b => GeminiService.mkBlob (GeminiService.data b)
                            (f (GeminiService.mimeType b)))
                (GeminiService.inlineData p)).

Definition retagResponse (f : option string -> option string)
    (r : GeminiService.GenerateContentResponse) : GeminiService.GenerateContentResponse :=
  GeminiService.mkResponse
    (option_map (map (fun cand =>
       GeminiService.mkCandidate
         (option_map (fun c => GeminiService.mkContent
                                 (option_map (map (retagPart f)) (GeminiService.parts c)))
                     (GeminiService.content cand))))
       (GeminiService.candidates r))
    (GeminiService.response_text r).

Definition retagClient (f : option string -> option string) (ai : GeminiService.GoogleGenAI)
  : GeminiService.GoogleGenAI :=
  GeminiService.mkGenAI (GeminiService.construct ai)
    (fun req => match GeminiService.generateContent ai req with
                | Fulfilled r => Fulfilled (retagResponse f r)
                | Rejected e => Rejected e
                end).

(** The text [analyzeParkingSign] hands to [JSON.parse]. *)
Definition jsonInput (trimmed : string) : string :=
  if truthy_str (Some trimmed) then trimmed else "{}".

(** ** Concrete values used below *)

Definition sampleImage : string := "data:image/jpeg;base64,QUJD".

Definition respondsText (t : string) : GeminiService.GoogleGenAI :=
  GeminiService.respondsWith (GeminiService.mkResponse None (Some t)).

Definition respondsParts (ps : list GeminiService.Part) : GeminiService.GoogleGenAI :=
  GeminiService.respondsWith
    (GeminiService.mkResponse
       (Some [GeminiService.mkCandidate (Some (GeminiService.mkContent (Some ps)))])
       None).

Definition pngPart (payload : string) : GeminiService.Part :=
  GeminiService.mkPart None (Some (GeminiService.mkBlob (Some payload) (Some "image/png"))).

(** A response text holding the object [{"status": "ALLOWED"}]. *)
Definition statusOnlyText : string :=
  "{" ++ Reference.quoted "status" ++ ": " ++ Reference.quoted "ALLOWED" ++ "}".

(** A device whose camera opens at once, one with no camera, and one
    that refuses the preferred constraints only. *)
Definition workingCamera : ScannerView.Navigator :=
  ScannerView.mkNavigator true (fun _ => Fulfilled (ScannerView.mkStream [1; 2])).

Definition noCamera : ScannerView.Navigator :=
  ScannerView.mkNavigator true
    (fun _ => Rejected (mkError "NotFoundError" "Requested device not found")).

Definition frontCameraOnly : ScannerView.Navigator :=
  ScannerView.mkNavigator true
    (fun k => match ScannerView.video k with
              | ScannerView.AnyVideo => Fulfilled (ScannerView.mkStream [7])
              | ScannerView.VideoSpec _ _ _ =>
                  Rejected (mkError "OverconstrainedError" "facingMode")
              end).

(** The scanner once its camera runs. *)
Definition cameraReady : ScannerView.Component :=
  ScannerView.startCamera workingCamera ScannerView.mounted.

(** The editor with a photo chosen and a prompt typed. *)
Definition readyToEdit : EditView.Component :=
  EditView.mounted |> EditView.handleFileChange (Some sampleImage)
                   |> EditView.setPrompt "Add retro filter".

(** ** ScannerView: the result panel

    The JSX under [{result && (...)}].  A child of an element is the
    value put between braces; React renders a string or a number as
    text, nothing for a boolean or [null], an array as its items, and
    throws on a plain object. *)

Module ScannerPanel.

Inductive Tone : Type := Green | Red | Yellow.

Inductive Icon : Type := CheckMark | WarningSign.

Record ResultPanel : Type := mkPanel {
  background : Tone;
  foreground : Tone;
  icon : Icon;
  heading : option JSValue;
  lines : list JSValue
}.

(** [result.status === s] *)
Definition statusIs (result : JSValue) (s : string) : bool :=
  match get_field result "status" with
  | Some (JStr t) => String.eqb t s
  | _ => false
  end.

(** [status === 'ALLOWED' ? green : status === 'FORBIDDEN' ? red : yellow] *)
Definition toneOf (result : JSValue) : Tone :=
  if statusIs result "ALLOWED" then Green
  else if statusIs result "FORBIDDEN" then Red
  else Yellow.

Fixpoint validChild (v : JSValue) : bool :=
  match v with
  | JObj _ => false
  | JArr items => forallb validChild items
  | _ => true
  end.

Definition validHeading (o : option JSValue) : bool :=
  match o with
  | Some v => validChild v
  | None => true
  end.

(** The panel for a truthy [result], or the error its render throws:
    [result.details.map] needs an array, and every child must be one
    React accepts. *)
Definition renderResult (result : JSValue) : JSError + ResultPanel :=
  match get_field result "details" with
  | Some (JArr ds) =>
      if validHeading (get_field result "summary") && forallb validChild ds
      then inr (mkPanel (toneOf result) (toneOf result)
                  (if statusIs result "ALLOWED" then CheckMark else WarningSign)
                  (get_field result "summary") ds)
      else inl (Error "Objects are not valid as a React child")
  | Some _ => inl (TypeError "result.details.map is not a function")
  | None => inl (TypeError "Cannot read properties of undefined (reading 'map')")
  end.

(** What the render makes of the result panel: nothing when [result]
    is falsy. *)
Definition renderResultPanel (c : ScannerView.Component) : option (JSError + ResultPanel) :=
  if ScannerView.showsResultPanel c then Some (renderResult (ScannerView.result c))
  else None.

(** A value of the shape [ParkingAnalysis] declares, whatever string
    its [status] is. *)
Definition isString (o : option JSValue) : bool :=
  match o with Some (JStr _) => true | _ => false end.

Definition isStringArray (o : option JSValue) : bool :=
  match o with
  | Some (JArr ds) => forallb (fun d => match d with JStr _ => true | _ => false end) ds
  | _ => false
  end.

Definition shapedAnalysis (v : JSValue) : bool :=
  isString (get_field v "status") && isString (get_field v "summary")
  && isStringArray (get_field v "details").

End ScannerPanel.

(** ** ScannerView over time

    The effect of the component, handlers run to their end, and the
    view together with the promises it awaits. *)

Module ScannerSession.

Import ScannerView.

(** [handleReset] and the [startCamera] it calls, run to the end. *)
Definition handleReset_run (seen : bool) (nav : Navigator) (c : Component) : Component :=
  match handleReset seen nav c with
  | (c1, false) => c1
  | (c1, true) => startCamera_resume nav c1
  end.

(** A commit of a render: the [<video>] is in the document exactly
    when [cameraNotFound] is false, and a newly mounted one has no
    [srcObject]. *)
Definition commit (c : Component) : Component :=
  if showsVideo c then
    match videoRef c with
    | Some _ => c
    | None => c |> set_videoRef (Some (mkVideo None))
    end
  else c |> set_videoRef None.

(** Unmounting: the cleanup of the effect, [() => stopCamera()], and
    the refs of the elements set back to [null]. *)
Definition unmount (c : Component) : Component :=
  c |> stopCamera |> set_videoRef None |> set_canvasRef false.

(** *** Handlers one at a time

    The states the view rests in when every handler runs to its end
    before the next one starts, each closing over the render it was
    made in. *)
Inductive atRest : Component -> Prop :=
| rest_mount : forall nav, atRest (startCamera nav mounted)
| rest_analysis : forall c nav r base64,
    atRest c -> atRest (processImage (cameraNotFound c) nav r base64 c)
| rest_reset : forall c nav,
    atRest c ->
    showsResultPanel c || showsRetryCamera c = true ->
    atRest (handleReset_run (cameraNotFound c) nav c)
| rest_commit : forall c, atRest c -> atRest (commit c).

(** *** Handlers interleaved

    Where a suspended [startCamera] waits. *)
Inductive CameraStage : Type := AwaitingPreferred | AwaitingFallback.

(** The view, the [FileReader] loads under way, the analyses awaited
    (each with the [cameraNotFound] its closure saw) and the suspended
    [startCamera] runs. *)
Record Session : Type := mkSession {
  view : Component;
  reads : list bool;
  analyses : list bool;
  cameras : list CameraStage
}.

Definition suspendedCamera (suspended : bool) : list CameraStage :=
  if suspended then [AwaitingPreferred] else [].

(** One closure flag per [analyzeParkingSign] call made between two
    states. *)
Definition newCalls (before after : Component) : list bool :=
  repeat (cameraNotFound before)
    (List.length (analyzeCalls (trace after)) - List.length (analyzeCalls (trace before))).

(** The effect: [startCamera()] on mount. *)
Definition onMount (nav : Navigator) : Session :=
  let (c, suspended) := startCamera_begin nav mounted in
  mkSession c [] [] (suspendedCamera suspended).

Inductive step : Session -> Session -> Prop :=
| step_capture : forall s context frame c',
    clickCapture context frame (view s) = Some c' ->
    step s (mkSession c' (reads s) (analyses s ++ newCalls (view s) c') (cameras s))
| step_choose : forall s,
    step s (mkSession (view s) (reads s ++ [cameraNotFound (view s)])
              (analyses s) (cameras s))
| step_loaded : forall s pre seen post dataURL,
    reads s = (pre ++ seen :: post)%list ->
    step s (mkSession (handleFileUpload (Some dataURL) (view s)) (pre ++ post)
              (analyses s ++ [seen]) (cameras s))
| step_settle : forall s pre seen post nav r,
    analyses s = (pre ++ seen :: post)%list ->
    step s (mkSession (fst (processImage_settle seen nav r (view s))) (reads s)
              (pre ++ post)
              (cameras s ++ suspendedCamera (snd (processImage_settle seen nav r (view s)))))
| step_reset : forall s nav,
    showsResultPanel (view s) || showsRetryCamera (view s) = true ->
    step s (mkSession (fst (handleReset (cameraNotFound (view s)) nav (view s)))
              (reads s) (analyses s)
              (cameras s
                 ++ suspendedCamera (snd (handleReset (cameraNotFound (view s)) nav (view s)))))
| step_preferred : forall s pre post r,
    cameras s = (pre ++ AwaitingPreferred :: post)%list ->
    step s (mkSession (fst (startCamera_preferred r (view s))) (reads s) (analyses s)
              (pre ++ (if snd (startCamera_preferred r (view s))
                       then [AwaitingFallback] else []) ++ post))
| step_fallback : forall s pre post r,
    cameras s = (pre ++ AwaitingFallback :: post)%list ->
    step s (mkSession (startCamera_fallback r (view s)) (reads s) (analyses s)
              (pre ++ post))
| step_commit : forall s,
    step s (mkSession (commit (view s)) (reads s) (analyses s) (cameras s)).

Inductive reachable : Session -> Prop :=
| reach_mount : forall nav, reachable (onMount nav)
| reach_step : forall s s', reachable s -> step s s' -> reachable s'.

Inductive steps : Session -> Session -> Prop :=
| steps_refl : forall s, steps s s
| steps_step : forall s s' s'', steps s s' -> step s' s'' -> steps s s''.

(** The sessions reached when no file is ever chosen: every picture
    comes from the capture button. *)
Inductive reachableByCapture : Session -> Prop :=
| capture_mount : forall nav, reachableByCapture (onMount nav)
| capture_step : forall s s',
    reachableByCapture s -> step s s' -> reads s' = [] -> reachableByCapture s'.

(** Steps along which [loading] stays set. *)
Inductive stepsWhileLoading : Session -> Session -> Prop :=
| loading_refl : forall s, stepsWhileLoading s s
| loading_step : forall s s' s'',
    stepsWhileLoading s s' -> step s' s'' -> loading (view s'') = true ->
    stepsWhileLoading s s''.

(** Loading, with nothing that could hand the view a stream: no
    [startCamera] suspended, no stream held, the camera not ready, and
    neither a result nor an error on screen. *)
Definition roundTripQuiet (s : Session) : Prop :=
  loading (view s) = true
  /\ cameras s = []
  /\ streamRef (view s) = None
  /\ isCameraReady (view s) = false
  /\ truthy (result (view s)) = false
  /\ truthy_str (error (view s)) = false.

End ScannerSession.

(** ** EditView: what the workspace shows *)

(** [src={editedImage || originalImage}] *)
Definition displayedImage (c : EditView.Component) : option string :=
  if truthy_str (EditView.editedImage c) then EditView.editedImage c
  else EditView.originalImage c.

(** Whether an [editImage] call carries a picture and a prompt with
    something in it. *)
Definition meaningfulEdit (trim : string -> string) (e : EditView.Event) : bool :=
  match e with
  | EditView.EditImage base64 prompt =>
      truthy_str (Some base64) && truthy_str (Some (trim prompt))
  end.

(** ** App.tsx *)

Module App.

Inductive Tab : Type := scan | edit.

Definition tab_eqb (a b : Tab) : bool :=
  match a, b with
  | scan, scan => true
  | edit, edit => true
  | _, _ => false
  end.

(** [{activeTab === 'scan' ? <ScannerView /> : <EditView />}]: the
    view mounted, with the promises it awaits. *)
Inductive Child : Type :=
| Scanner (s : ScannerSession.Session)
| Editor (s : EditView.Session).

(** [activeTab], the view mounted under it, and the calls made by the
    scanners unmounted so far. *)
Record State : Type := mkState {
  activeTab : Tab;
  child : Child;
  past : list ScannerView.Event
}.

Definition initial (nav : ScannerView.Navigator) : State :=
  mkState scan (Scanner (ScannerSession.onMount nav)) [].

(** [onTabChange(tab)], that is [setActiveTab(tab)], and the commit
    that follows: the same tab leaves everything as it is; another tab
    unmounts the view in place and mounts the other one afresh. *)
Definition onTabChange (nav : ScannerView.Navigator) (tab : Tab) (st : State) : State :=
  if tab_eqb tab (activeTab st) then st
  else
    let left := match child st with
                | Scanner s =>
                    ScannerView.trace (ScannerSession.unmount (ScannerSession.view s))
                | Editor _ => []
                end in
    match tab with
    | scan => mkState scan (Scanner (ScannerSession.onMount nav)) (past st ++ left)
    | edit =>
        mkState edit (Editor (EditView.mkSession EditView.mounted 0)) (past st ++ left)
    end.

Definition childMatches (st : State) : bool :=
  match activeTab st, child st with
  | scan, Scanner _ => true
  | edit, Editor _ => true
  | _, _ => false
  end.

Section Trim.

Variable trim : string -> string.

(** The application over time: a tab is chosen, or the mounted view
    takes a step of its own. *)
Inductive step (nav : ScannerView.Navigator) : State -> State -> Prop :=
| step_tab : forall tab st, step nav st (onTabChange nav tab st)
| step_scanner : forall st s s',
    child st = Scanner s -> ScannerSession.step s s' ->
    step nav st (mkState (activeTab st) (Scanner s') (past st))
| step_editor : forall st s s',
    child st = Editor s -> EditView.step trim s s' ->
    step nav st (mkState (activeTab st) (Editor s') (past st)).

Inductive reachable (nav : ScannerView.Navigator) : State -> Prop :=
| reach_initial : reachable nav (initial nav)
| reach_step : forall st st', reachable nav st -> step nav st st' -> reachable nav st'.

End Trim.

End App.

(** A response whose image data is absent, and a blank response. *)
Definition blankText : string := String " " (String "010" (String " " EmptyString)).

Definition shapedAnalysisSample : JSValue :=
  JObj [("status", JStr "MAYBE");
        ("summary", JStr "Unclear sign");
        ("details", JArr [JStr "Ask a warden"])].

(** Whether the scanner presents any button at all: the capture
    panel, the gallery fallback, the result panel or the error panel. *)
Definition presentsAnyControl (c : ScannerView.Component) : bool :=
  ScannerView.showsCapturePanel c || ScannerView.showsGalleryFallback c
  || ScannerView.showsResultPanel c || ScannerView.showsErrorPanel c.

(** An error on screen means the camera is flagged unavailable. *)
Definition errorMeansUnavailable (c : ScannerView.Component) : Prop :=
  truthy_str (ScannerView.error c) = true -> ScannerView.cameraNotFound c = true.

(** A view that says the camera is ready holds a stream. *)
Definition readyHoldsStream (c : ScannerView.Component) : Prop :=
  ScannerView.isCameraReady c = true -> ScannerView.streamRef c <> None.

(** The camera is flagged unavailable, no [startCamera] is suspended,
    and every file load and analysis under way belongs to a closure
    that saw the flag. *)
Definition unavailableForGood (s : ScannerSession.Session) : Prop :=
  ScannerView.cameraNotFound (ScannerSession.view s) = true
  /\ ScannerSession.cameras s = []
  /\ Forall (eq true) (ScannerSession.reads s)
  /\ Forall (eq true) (ScannerSession.analyses s).

(** The scanner after mounting on a device with no camera, both
    requests rejected. *)
Definition cameraDenied : ScannerSession.Session :=
  ScannerSession.mkSession (ScannerView.startCamera noCamera ScannerView.mounted) [] [] [].

(** How many suspended [startCamera] runs wait for the preferred
    request. *)
Definition waitingPreferred (cs : list ScannerSession.CameraStage) : nat :=
  List.length (filter (fun st => match st with
                                 | ScannerSession.AwaitingPreferred => true
                                 | ScannerSession.AwaitingFallback => false
                                 end) cs).

(** *** Two analyses awaited at once

    The camera runs; a file is chosen; before it is read the capture
    button is clicked; the file is read; the first call is rejected and
    restarts the camera, which opens again. *)
Definition capturedFrame : string := "data:image/jpeg;base64,RlJBTUU=".

Definition liveView : ScannerView.Component :=
  fst (ScannerView.startCamera_preferred (Fulfilled (ScannerView.mkStream [1; 2]))
         (fst (ScannerView.startCamera_begin workingCamera ScannerView.mounted))).

Definition captureAwaited : ScannerView.Component :=
  ScannerView.handleCapture true capturedFrame liveView.

Definition bothAwaited : ScannerView.Component :=
  ScannerView.handleFileUpload (Some sampleImage) captureAwaited.

Definition firstRejected : ScannerView.Component :=
  fst (ScannerView.processImage_settle false workingCamera
         (Rejected (Error "Failed to analyze sign")) bothAwaited).

Definition liveWhileAwaited : ScannerView.Component :=
  fst (ScannerView.startCamera_preferred (Fulfilled (ScannerView.mkStream [3; 4]))
         firstRejected).

Definition overlapSession : ScannerSession.Session :=
  ScannerSession.mkSession liveWhileAwaited [] [false] [].

(** *** A camera that opens during the round trip

    A file is chosen and read while the request made on mount is still
    awaited; the request is then answered. *)
Definition uploadedEarly : ScannerView.Component :=
  ScannerView.handleFileUpload (Some sampleImage)
    (fst (ScannerView.startCamera_begin workingCamera ScannerView.mounted)).

Definition openedDuringAnalysis : ScannerView.Component :=
  fst (ScannerView.startCamera_preferred (Fulfilled (ScannerView.mkStream [1; 2]))
         uploadedEarly).

Definition lateCameraSession : ScannerSession.Session :=
  ScannerSession.mkSession openedDuringAnalysis [] [false] [].

(** *** The application with a scanner at work *)
Definition appLive : App.State :=
  App.mkState App.scan (App.Scanner (ScannerSession.mkSession liveView [] [] [])) [].

Definition resultShown : ScannerView.Component :=
  fst (ScannerView.processImage_settle false workingCamera (Fulfilled shapedAnalysisSample)
         (ScannerView.handleFileUpload (Some sampleImage) liveView)).

Definition appWithResult : App.State :=
  App.mkState App.scan (App.Scanner (ScannerSession.mkSession resultShown [] [] [])) [].

(** * Theorems *)

Example ex_parse_empty : Reference.JSON_parse "{}" = Some (JObj []).
Proof. vm_compute. reflexivity. Qed.

Example ex_parse_obj :
  Reference.JSON_parse ("{" ++ Reference.quoted "status" ++ ": " ++ Reference.quoted "ALLOWED"
     ++ ", " ++ Reference.quoted "details" ++ ":[ 1.5e3 , true, null ]} ")
  = Some (JObj [("status", JStr "ALLOWED"); ("details", JArr [JNum "1.5e3"; JBool true; JNull])]).
Proof. vm_compute. reflexivity. Qed.

Example ex_truthy_numbers :
  map (fun lit => truthy (JNum lit))
    ["0"; "-0"; "0.0"; "0e5"; "1e-400"; "2e-324"; "3e-324"; "5e-324"; "1"; "-12.5e-3"]
  = [false; false; false; false; false; false; true; true; true; true].
Proof. vm_compute. reflexivity. Qed.

Example ex_trim : Reference.trim "  a b  " = "a b".
Proof. vm_compute. reflexivity. Qed.

Example ex_split : split_comma "a,b,c" = ["a"; "b"; "c"].
Proof. reflexivity. Qed.

(** ** The gateways *)

Section GatewayFacts.

Import GeminiService.

Lemma split_comma_head (s : string) :
  exists segs, split_comma s = uptoComma s :: segs.
Proof.
  induction s as [|c r [segs IH]]; simpl.
  - now exists [].
  - destruct (Ascii.eqb c ","%char).
    + now exists (split_comma r).
    + rewrite IH. now exists segs.
Qed.

Lemma split_comma_second (s : string) :
  nth_error (split_comma s) 1 = option_map uptoComma (afterFirstComma s).
Proof.
  induction s as [|c r IH]; simpl; [reflexivity|].
  destruct (Ascii.eqb c ","%char).
  - destruct (split_comma_head r) as [segs ->]. reflexivity.
  - destruct (split_comma_head r) as [segs E]. rewrite E in *. exact IH.
Qed.

Lemma uptoComma_no_comma (s : string) :
  afterFirstComma s = None -> uptoComma s = s.
Proof.
  induction s as [|c r IH]; simpl; [reflexivity|].
  destruct (Ascii.eqb c ","%char); [discriminate|].
  intros H. now rewrite IH.
Qed.

Lemma scanParts_skip (pre rest : list Part) :
  (forall q, In q pre -> inlineData q = None) ->
  scanParts (pre ++ rest) = scanParts rest.
Proof.
  induction pre as [|q pre IH]; simpl; intros H; [reflexivity|].
  rewrite (H q (or_introl eq_refl)). apply IH. intros q' Hq'. apply H. now right.
Qed.

Lemma scanParts_none (ps : list Part) :
  (forall q, In q ps -> inlineData q = None) -> scanParts ps = None.
Proof.
  intros H. rewrite <- (app_nil_r ps). now rewrite scanParts_skip.
Qed.

Lemma scanParts_prefix (ps : list Part) (url : string) :
  scanParts ps = Some url -> exists payload, url = "data:image/png;base64," ++ payload.
Proof.
  induction ps as [|p ps IH]; simpl; [discriminate|].
  destruct (inlineData p) as [b|]; [|exact IH].
  intros [= <-]. now exists (template (data b)).
Qed.

Lemma scanParts_retag (f : option string -> option string) (ps : list Part) :
  scanParts (map (retagPart f) ps) = scanParts ps.
Proof.
  induction ps as [|p ps IH]; simpl; [reflexivity|].
  destruct (inlineData p) as [b|]; simpl; [reflexivity|exact IH].
Qed.

Lemma editImage_try_parts (response : GenerateContentResponse) (ps : list Part) :
  contentParts response = Some ps ->
  editImage_try response =
    match scanParts ps with
    | Some url => inr url
    | None => inl (Error "No image data returned from model")
    end.
Proof.
  unfold contentParts, editImage_try.
  destruct (candidates response) as [[|cand cands]|]; try discriminate.
  destruct (content cand) as [c|]; try discriminate.
  intros ->. reflexivity.
Qed.

Lemma editImage_try_retag (f : option string -> option string)
    (response : GenerateContentResponse) :
  editImage_try (retagResponse f response) = editImage_try response.
Proof.
  unfold editImage_try, retagResponse; simpl.
  destruct (candidates response) as [[|cand cands]|]; simpl; try reflexivity.
  destruct (content cand) as [c|]; simpl; try reflexivity.
  destruct (parts c) as [ps|]; simpl; try reflexivity.
  now rewrite scanParts_retag.
Qed.

End GatewayFacts.

Import GeminiService.

(** C1, counterexample: a response whose parsed object has [status] but
    neither [summary] nor [details] is returned to the caller as it is,
    and an empty response text is returned as the empty object. *)
Lemma analyzeParkingSign_returns_partial_result :
  outcome (analyzeParkingSign Reference.trim Reference.JSON_parse
             (respondsText statusOnlyText) EmptyString sampleImage)
    = Fulfilled (JObj [("status", JStr "ALLOWED")])
  /\ hasRequiredFields (JObj [("status", JStr "ALLOWED")]) = false
  /\ outcome (analyzeParkingSign Reference.trim Reference.JSON_parse
                (respondsText EmptyString) EmptyString sampleImage)
       = Fulfilled (JObj [])
  /\ hasRequiredFields (JObj []) = false.
Proof. vm_compute. repeat split. Qed.

(** C1, as amended: when the model responds, [analyzeParkingSign]
    succeeds with [v] exactly when the response has a text and
    [JSON.parse] of it (trimmed, [{}] standing in for an empty text)
    yields [v]; the value is returned unchanged, with no check of the
    fields it holds, and every rejection is the one fixed error. *)
Theorem analyzeParkingSign_returns_parsed_value :
  forall (trim : string -> string) (JSON_parse : string -> option JSValue)
         (ai : GoogleGenAI) (instruction base64Image : string)
         (response : GenerateContentResponse),
    construct ai = None ->
    generateContent ai (analyzeRequest instruction base64Image) = Fulfilled response ->
    (forall v,
        outcome (analyzeParkingSign trim JSON_parse ai instruction base64Image) = Fulfilled v
        <-> exists t, response_text response = Some t
                      /\ JSON_parse (jsonInput (trim t)) = Some v)
    /\ (forall e,
        outcome (analyzeParkingSign trim JSON_parse ai instruction base64Image) = Rejected e
        -> e = Error "Failed to analyze sign").
Proof.
  intros trim JSON_parse ai instruction base64Image response Hc Hr.
  unfold analyzeParkingSign, analyzeParkingSign_try. fold (jsonInput).
  rewrite Hc, Hr.
  destruct (response_text response) as [t|]; cbn [outcome].
  - change (if truthy_str (Some (trim t)) then trim t else "{}")
      with (jsonInput (trim t)).
    destruct (JSON_parse (jsonInput (trim t))) as [w|] eqn:E; cbn [outcome].
    + split.
      * intros v; split.
        -- intros [= <-]. now exists t.
        -- intros [t' [[= <-] H]]. rewrite E in H. now injection H as <-.
      * discriminate.
    + split.
      * intros v; split; [discriminate|].
        intros [t' [[= <-] H]]. rewrite E in H. discriminate.
      * now intros e [= <-].
  - split.
    + intros v; split; [discriminate|]. intros [t [H _]]. discriminate.
    + now intros e [= <-].
Qed.

Lemma analyzeParkingSign_returns_parsed_value_witness :
  (forall v,
      outcome (analyzeParkingSign Reference.trim Reference.JSON_parse
                 (respondsText statusOnlyText) EmptyString sampleImage) = Fulfilled v
      <-> exists t, response_text (mkResponse None (Some statusOnlyText)) = Some t
                    /\ Reference.JSON_parse (jsonInput (Reference.trim t)) = Some v)
  /\ (forall e,
      outcome (analyzeParkingSign Reference.trim Reference.JSON_parse
                 (respondsText statusOnlyText) EmptyString sampleImage) = Rejected e
      -> e = Error "Failed to analyze sign").
Proof.
  apply (analyzeParkingSign_returns_parsed_value Reference.trim Reference.JSON_parse
           (respondsText statusOnlyText) EmptyString sampleImage
           (mkResponse None (Some statusOnlyText))); reflexivity.
Defined.

(** C2, counterexample: for a response holding one text part and no
    image, the promise of [editImage] is rejected with the very error a
    transport failure produces. *)
Lemma editImage_no_image_same_as_transport :
  outcome (editImage (respondsParts [textPart "Sorry, I cannot do that."])
             sampleImage "Add retro filter")
  = outcome (editImage (failsWith (TypeError "fetch failed"))
               sampleImage "Add retro filter").
Proof. reflexivity. Qed.

(** C2, as amended: for every response whose content parts hold no
    inline data, [editImage] is rejected with the fixed error
    [Failed to edit image], the same rejection a transport failure
    gives; the error [No image data returned from model] reaches the
    console only. *)
Theorem editImage_no_image_fixed_failure :
  forall (ai : GoogleGenAI) (base64Image prompt : string)
         (response : GenerateContentResponse) (ps : list Part),
    construct ai = None ->
    generateContent ai (editRequest base64Image prompt) = Fulfilled response ->
    contentParts response = Some ps ->
    (forall q, In q ps -> inlineData q = None) ->
    outcome (editImage ai base64Image prompt) = Rejected (Error "Failed to edit image")
    /\ console (editImage ai base64Image prompt)
       = [("Image editing error:", Error "No image data returned from model")]
    /\ (forall e, outcome (editImage (failsWith e) base64Image prompt)
                  = outcome (editImage ai base64Image prompt)).
Proof.
  intros ai base64Image prompt response ps Hc Hr Hps Hno.
  unfold editImage. rewrite Hc, Hr, (editImage_try_parts _ _ Hps).
  rewrite (scanParts_none _ Hno). simpl. repeat split.
Qed.

Lemma editImage_no_image_fixed_failure_witness :
  outcome (editImage (respondsParts [textPart "one"; textPart "two"]) sampleImage "p")
    = Rejected (Error "Failed to edit image")
  /\ console (editImage (respondsParts [textPart "one"; textPart "two"]) sampleImage "p")
     = [("Image editing error:", Error "No image data returned from model")]
  /\ (forall e, outcome (editImage (failsWith e) sampleImage "p")
                = outcome (editImage (respondsParts [textPart "one"; textPart "two"])
                             sampleImage "p")).
Proof.
  apply (editImage_no_image_fixed_failure
           (respondsParts [textPart "one"; textPart "two"]) sampleImage "p"
           (mkResponse
              (Some [mkCandidate (Some (mkContent (Some [textPart "one"; textPart "two"])))])
              None)
           [textPart "one"; textPart "two"]); try reflexivity.
  intros q [<-|[<-|[]]]; reflexivity.
Defined.

(** C3: when the content parts hold inline data, [editImage] returns
    the data URL made from the first part, in part order, that has
    inline data, wherever that part stands. *)
Theorem editImage_returns_first_image :
  forall (ai : GoogleGenAI) (base64Image prompt : string)
         (response : GenerateContentResponse)
         (pre : list Part) (p : Part) (blob : Blob) (post : list Part),
    construct ai = None ->
    generateContent ai (editRequest base64Image prompt) = Fulfilled response ->
    contentParts response = Some (pre ++ p :: post)%list ->
    (forall q, In q pre -> inlineData q = None) ->
    inlineData p = Some blob ->
    outcome (editImage ai base64Image prompt)
    = Fulfilled ("data:image/png;base64," ++ template (data blob)).
Proof.
  intros ai base64Image prompt response pre p blob post Hc Hr Hps Hpre Hp.
  unfold editImage. rewrite Hc, Hr, (editImage_try_parts _ _ Hps).
  rewrite (scanParts_skip _ _ Hpre). simpl. rewrite Hp. reflexivity.
Qed.

Lemma editImage_returns_first_image_witness :
  outcome (editImage (respondsParts [textPart "Here you go"; pngPart "iVBORw0KGgo="])
             sampleImage "Add retro filter")
  = Fulfilled "data:image/png;base64,iVBORw0KGgo=".
Proof.
  apply (editImage_returns_first_image
           (respondsParts [textPart "Here you go"; pngPart "iVBORw0KGgo="])
           sampleImage "Add retro filter"
           (mkResponse
              (Some [mkCandidate (Some (mkContent
                 (Some [textPart "Here you go"; pngPart "iVBORw0KGgo="])))])
              None)
           [textPart "Here you go"] (pngPart "iVBORw0KGgo=")
           (mkBlob (Some "iVBORw0KGgo=") (Some "image/png")) []); try reflexivity.
  intros q [<-|[]]; reflexivity.
Defined.

(** C9: every string [editImage] returns begins with
    [data:image/png;base64,], and neither the outcome nor that prefix
    depends on the MIME types the response declares: rewriting them all
    leaves the outcome as it was. *)
Theorem editImage_png_prefix :
  forall (ai : GoogleGenAI) (base64Image prompt url : string),
    outcome (editImage ai base64Image prompt) = Fulfilled url ->
    (exists payload, url = "data:image/png;base64," ++ payload)
    /\ (forall f, outcome (editImage (retagClient f ai) base64Image prompt)
                  = Fulfilled url).
Proof.
  intros ai base64Image prompt url.
  unfold editImage, retagClient; simpl.
  destruct (construct ai); [discriminate|].
  destruct (generateContent ai (editRequest base64Image prompt)) as [response|e];
    simpl; [|discriminate].
  destruct (editImage_try response) as [err|u] eqn:E; simpl; [discriminate|].
  intros [= <-]. split.
  - unfold editImage_try in E.
    destruct (candidates response) as [[|cand cands]|]; try discriminate.
    destruct (content cand) as [c|]; try discriminate.
    destruct (parts c) as [ps|]; try discriminate.
    destruct (scanParts ps) as [u'|] eqn:S; try discriminate.
    injection E as <-. exact (scanParts_prefix _ _ S).
  - intros f. now rewrite editImage_try_retag, E.
Qed.

Lemma editImage_png_prefix_witness :
  (exists payload, "data:image/png;base64,/9j/4AAQ" = "data:image/png;base64," ++ payload)
  /\ (forall f,
        outcome (editImage
                   (retagClient f (respondsParts
                      [mkPart None (Some (mkBlob (Some "/9j/4AAQ") (Some "image/jpeg")))]))
                   sampleImage "p")
        = Fulfilled "data:image/png;base64,/9j/4AAQ").
Proof.
  apply (editImage_png_prefix
           (respondsParts [mkPart None (Some (mkBlob (Some "/9j/4AAQ") (Some "image/jpeg")))])
           sampleImage "p" "data:image/png;base64,/9j/4AAQ").
  reflexivity.
Defined.

(** C10, counterexample: for an input with two commas the payload sent
    is the text between them, not the text after the first comma. *)
Lemma payload_not_all_after_first_comma :
  afterFirstComma "data:image/png;base64,AAAA,BBBB" = Some "AAAA,BBBB"
  /\ imagePayloads (sent (analyzeParkingSign Reference.trim Reference.JSON_parse
                            (respondsText "{}") EmptyString
                            "data:image/png;base64,AAAA,BBBB"))
     = [mkBlob (Some "AAAA") (Some "image/jpeg")]
  /\ imagePayloads (sent (editImage (respondsParts []) "data:image/png;base64,AAAA,BBBB" "p"))
     = [mkBlob (Some "AAAA") (Some "image/jpeg")].
Proof. vm_compute. repeat split. Qed.

(** C10, as amended: both gateways send one image payload, tagged
    [image/jpeg] whatever the input declares; its data is the text
    after the first comma of the input up to the next comma, or to the
    end when there is no second comma, and is absent when the input has
    no comma. *)
Theorem gateways_send_second_segment_as_jpeg :
  forall (trim : string -> string) (JSON_parse : string -> option JSValue)
         (ai : GoogleGenAI) (instruction base64Image prompt : string),
    construct ai = None ->
    imagePayloads (sent (analyzeParkingSign trim JSON_parse ai instruction base64Image))
      = [mkBlob (option_map uptoComma (afterFirstComma base64Image)) (Some "image/jpeg")]
    /\ imagePayloads (sent (editImage ai base64Image prompt))
      = [mkBlob (option_map uptoComma (afterFirstComma base64Image)) (Some "image/jpeg")]
    /\ (forall rest, afterFirstComma base64Image = Some rest ->
                     afterFirstComma rest = None ->
                     option_map uptoComma (afterFirstComma base64Image) = Some rest).
Proof.
  intros trim JSON_parse ai instruction base64Image prompt Hc.
  rewrite <- split_comma_second.
  repeat split.
  - unfold analyzeParkingSign. rewrite Hc.
    destruct (generateContent ai (analyzeRequest instruction base64Image)) as [r|e];
      [destruct (analyzeParkingSign_try trim JSON_parse r)|]; reflexivity.
  - unfold editImage. rewrite Hc.
    destruct (generateContent ai (editRequest base64Image prompt)) as [r|e];
      [destruct (editImage_try r)|]; reflexivity.
  - intros rest H1 H2. rewrite split_comma_second, H1. simpl.
    now rewrite uptoComma_no_comma.
Qed.

Lemma gateways_send_second_segment_as_jpeg_witness :
  imagePayloads (sent (analyzeParkingSign Reference.trim Reference.JSON_parse
                         (respondsText "{}") EmptyString "data:image/png;base64,iVBO"))
    = [mkBlob (Some "iVBO") (Some "image/jpeg")]
  /\ imagePayloads (sent (editImage (respondsText "{}") "data:image/png;base64,iVBO" "p"))
    = [mkBlob (Some "iVBO") (Some "image/jpeg")]
  /\ (forall rest, afterFirstComma "data:image/png;base64,iVBO" = Some rest ->
                   afterFirstComma rest = None ->
                   option_map uptoComma (afterFirstComma "data:image/png;base64,iVBO")
                   = Some rest).
Proof.
  apply (gateways_send_second_segment_as_jpeg Reference.trim Reference.JSON_parse
           (respondsText "{}") EmptyString "data:image/png;base64,iVBO" "p").
  reflexivity.
Defined.

(** ** The scanner view *)

Import ScannerView.

Section ScannerFacts.

Lemma cameraErrorMessage_cases (errName : string) :
  cameraErrorMessage errName = "No camera found on this device."
  \/ cameraErrorMessage errName = "Camera permission denied. Please enable it in your settings."
  \/ cameraErrorMessage errName = "Unable to access camera. Please use the gallery instead.".
Proof.
  unfold cameraErrorMessage.
  destruct (_ || _); [now left|]. destruct (_ || _); [right; now left|right; now right].
Qed.

Lemma cameraErrorMessage_not_analysis (errName : string) :
  cameraErrorMessage errName <> analysisFailedMessage.
Proof.
  destruct (cameraErrorMessage_cases errName) as [-> | [-> | ->]]; discriminate.
Qed.

Lemma stopCamera_trace (c : Component) :
  trace (stopCamera c) = (trace c ++ map TrackStop (heldTracks c))%list.
Proof.
  unfold stopCamera, heldTracks. destruct (streamRef c); simpl; [reflexivity|].
  now rewrite app_nil_r.
Qed.

Lemma stopCamera_error (c : Component) : error (stopCamera c) = error c.
Proof. unfold stopCamera. destruct (streamRef c); reflexivity. Qed.

Lemma stopCamera_streamRef (c : Component) : streamRef (stopCamera c) = None.
Proof. unfold stopCamera. destruct (streamRef c) eqn:E; simpl; [reflexivity|exact E]. Qed.

Lemma attachStream_error (stream : MediaStream) (c : Component) :
  error c = None -> error (attachStream stream c) = None.
Proof. unfold attachStream. destruct (videoRef c); simpl; auto. Qed.

Lemma attachStream_cameraNotFound (stream : MediaStream) (c : Component) :
  cameraNotFound (attachStream stream c) = cameraNotFound c.
Proof. unfold attachStream. destruct (videoRef c); reflexivity. Qed.

Lemma attachStream_trace (stream : MediaStream) (c : Component) :
  trace (attachStream stream c) = trace c.
Proof. unfold attachStream. destruct (videoRef c); reflexivity. Qed.

Lemma attempts_app (k : MediaStreamConstraints) (xs ys : list Event) :
  attempts k (xs ++ ys) = attempts k xs + attempts k ys.
Proof. unfold attempts. now rewrite filter_app, length_app. Qed.

Lemma attempts_stops (k : MediaStreamConstraints) (ts : list nat) :
  attempts k (map TrackStop ts) = 0.
Proof. induction ts as [|t ts IH]; [reflexivity|exact IH]. Qed.

End ScannerFacts.

(** C4: when the preferred request is rejected, the fallback request
    is made exactly once (and the preferred one is not repeated); the
    camera is flagged unavailable exactly when the fallback is rejected
    too; then no stream is held, every track held before is stopped,
    and the message is chosen by the name of the fallback's error among
    three different texts: no device, permission denied, anything
    else. *)
Theorem startCamera_fallback_once :
  forall (nav : Navigator) (c : Component) (e1 : JSError),
    mediaDevices nav = true ->
    getUserMedia nav preferredConstraints = Rejected e1 ->
    (exists evs,
        trace (startCamera nav c)
          = (trace c ++ map TrackStop (heldTracks c)
               ++ evs)%list
        /\ attempts fallbackConstraints evs = 1
        /\ attempts preferredConstraints evs = 1)
    /\ (cameraNotFound (startCamera nav c) = true
        <-> exists e2,
            getUserMedia nav fallbackConstraints = Rejected e2)
    /\ (forall e2,
        getUserMedia nav fallbackConstraints = Rejected e2 ->
        streamRef (startCamera nav c) = None
        /\ isCameraReady (startCamera nav c) = false
        /\ error (startCamera nav c)
           = Some (cameraErrorMessage (name e2))
        /\ ((name e2 = "NotFoundError" \/ name e2 = "DevicesNotFoundError") ->
            cameraErrorMessage (name e2) = "No camera found on this device.")
        /\ ((name e2 = "NotAllowedError" \/ name e2 = "PermissionDeniedError") ->
            cameraErrorMessage (name e2)
            = "Camera permission denied. Please enable it in your settings.")
        /\ (name e2 <> "NotFoundError" -> name e2 <> "DevicesNotFoundError" ->
            name e2 <> "NotAllowedError" -> name e2 <> "PermissionDeniedError" ->
            cameraErrorMessage (name e2)
            = "Unable to access camera. Please use the gallery instead.")).
Proof.
  intros nav c e1 Hm Hp.
  unfold startCamera, startCamera_begin,
    startCamera_resume, startCamera_preferred.
  rewrite Hm, Hp. cbn [negb].
  set (c0 := c |> setCameraNotFound false |> setError None).
  assert (Hheld : heldTracks c0 = heldTracks c) by reflexivity.
  assert (Htr : trace c0 = trace c) by reflexivity.
  assert (Hcnf : cameraNotFound (stopCamera c0) = false).
  { unfold stopCamera. destruct (streamRef c0); reflexivity. }
  assert (Hrdy : isCameraReady (stopCamera c0) = false).
  { unfold stopCamera. destruct (streamRef c0); reflexivity. }
  pose proof (stopCamera_streamRef c0) as Hsr.
  pose proof (stopCamera_trace c0) as Hst. rewrite Hheld, Htr in Hst.
  destruct (getUserMedia nav fallbackConstraints) as [stream|e2];
    unfold startCamera_fallback.
  - split; [|split].
    + eexists. rewrite attachStream_trace. simpl. rewrite Hst.
      rewrite <- !app_assoc. split; [reflexivity|]. split; reflexivity.
    + rewrite attachStream_cameraNotFound. simpl. rewrite Hcnf.
      split; [discriminate|]. intros [e2 H]. discriminate.
    + intros e2 H. discriminate.
  - split; [|split].
    + eexists. simpl. rewrite Hst. rewrite <- !app_assoc.
      split; [reflexivity|]. split; reflexivity.
    + simpl. split; [intros _; now exists e2|reflexivity].
    + intros e2' [= <-]. simpl. rewrite Hsr, Hrdy. repeat split.
      * unfold cameraErrorMessage. intros [-> | ->]; reflexivity.
      * unfold cameraErrorMessage. intros [-> | ->]; reflexivity.
      * intros H1 H2 H3 H4. unfold cameraErrorMessage.
        apply String.eqb_neq in H1, H2, H3, H4. now rewrite H1, H2, H3, H4.
Qed.

Example ex_front_camera_only :
  let c := startCamera frontCameraOnly mounted in
  isCameraReady c = true
  /\ cameraNotFound c = false
  /\ streamRef c = Some (mkStream [7])
  /\ attempts fallbackConstraints (trace c) = 1
  /\ attempts preferredConstraints (trace c) = 1.
Proof. vm_compute. repeat split. Qed.

Example ex_analysis_succeeds :
  let analysis := JObj [("status", JStr "ALLOWED");
                        ("summary", JStr "Parking allowed until 18:00");
                        ("details", JArr [JStr "Free parking on Sundays"])] in
  let c := processImage false workingCamera (Fulfilled analysis) sampleImage cameraReady in
  result c = analysis /\ loading c = false /\ error c = None
  /\ showsResultPanel c = true /\ streamRef c = None
  /\ trace c = [GetUserMedia preferredConstraints; TrackStop 1; TrackStop 2;
                AnalyzeParkingSign sampleImage].
Proof. vm_compute. repeat split. Qed.

Lemma startCamera_fallback_once_witness :
  cameraNotFound (startCamera noCamera cameraReady) = true
  /\ streamRef (startCamera noCamera cameraReady) = None
  /\ error (startCamera noCamera cameraReady) = Some "No camera found on this device.".
Proof.
  destruct (startCamera_fallback_once noCamera cameraReady
              (mkError "NotFoundError" "Requested device not found")
              eq_refl eq_refl) as [_ [Hflag Hfail]].
  destruct (Hfail (mkError "NotFoundError" "Requested device not found") eq_refl)
    as [Hs [_ [He _]]].
  split; [|split].
  - apply Hflag. now exists (mkError "NotFoundError" "Requested device not found").
  - exact Hs.
  - exact He.
Defined.

(** [processImage] stops every track of the stream it holds and
    clears the handle before it calls [analyzeParkingSign], whose call
    is the last thing it does before suspending; the state it suspends
    in is the loading one, with no stream held, and presents neither the
    capture panel nor the result panel nor the error panel, so that no
    handler of the view can run before a promise settles.  Capture and
    upload enter that state through [processImage] only. *)
Lemma processImage_releases_camera_first :
  forall (base64 : string) (c : Component),
    trace (processImage_begin base64 c)
      = (trace c ++ map TrackStop (heldTracks c) ++ [AnalyzeParkingSign base64])%list
    /\ streamRef (processImage_begin base64 c) = None
    /\ heldTracks (processImage_begin base64 c) = []
    /\ isCameraReady (processImage_begin base64 c) = false
    /\ loading (processImage_begin base64 c) = true
    /\ showsCapturePanel (processImage_begin base64 c) = false
    /\ showsResultPanel (processImage_begin base64 c) = false
    /\ showsErrorPanel (processImage_begin base64 c) = false
    /\ (forall context frame,
          handleCapture context frame c = c
          \/ handleCapture context frame c = processImage_begin frame c)
    /\ (forall file,
          handleFileUpload file c = c
          \/ exists dataURL, handleFileUpload file c = processImage_begin dataURL c).
Proof.
  intros base64 c. unfold processImage_begin.
  set (c0 := c |> setCapturedImage (Some base64) |> setLoading true |> setError None
               |> setResult JNull).
  assert (Hheld : heldTracks c0 = heldTracks c) by reflexivity.
  assert (Hsr : streamRef (stopCamera c0 |> emit [AnalyzeParkingSign base64]) = None)
    by exact (stopCamera_streamRef c0).
  repeat split.
  - simpl. rewrite stopCamera_trace, Hheld. now rewrite <- app_assoc.
  - exact Hsr.
  - unfold heldTracks. now rewrite Hsr.
  - unfold stopCamera. destruct (streamRef c0); reflexivity.
  - unfold stopCamera. destruct (streamRef c0); reflexivity.
  - unfold stopCamera. destruct (streamRef c0); reflexivity.
  - unfold stopCamera. destruct (streamRef c0); reflexivity.
  - unfold stopCamera. destruct (streamRef c0); reflexivity.
  - intros context frame. unfold handleCapture.
    destruct (videoRef c), (canvasRef c), context; auto.
  - intros [dataURL|]; simpl; [right; now exists dataURL|now left].
Qed.

(** C7, what the code does: when [processImage] closes over
    [cameraNotFound = false] and the analysis is rejected, the message
    it sets is overwritten by the [startCamera] it calls next, so that
    no state it leaves shows the analysis message; with a working
    camera the scanner ends with no error at all, the error panel
    hidden and the capture panel on screen.  Only when it closes over
    [cameraNotFound = true] does the message stay, with no camera
    request made; the edit view, which restarts nothing, keeps its
    message. *)
Theorem processImage_failure_message_overwritten :
  (forall (nav : Navigator) (e : JSError) (base64 : string) (c : Component),
      error (fst (processImage_settle false nav (Rejected e) (processImage_begin base64 c)))
        <> Some analysisFailedMessage
      /\ error (processImage false nav (Rejected e) base64 c) <> Some analysisFailedMessage)
  /\ (let c := processImage false workingCamera (Rejected (Error "Failed to analyze sign"))
                 sampleImage cameraReady in
      error c = None /\ loading c = false /\ showsErrorPanel c = false
      /\ showsCapturePanel c = true /\ isCameraReady c = true)
  /\ (forall (nav : Navigator) (e : JSError) (base64 : string) (c : Component),
      error (processImage true nav (Rejected e) base64 c) = Some analysisFailedMessage
      /\ trace (processImage true nav (Rejected e) base64 c)
         = trace (processImage_begin base64 c))
  /\ (forall (e : JSError) (c : EditView.Component),
      EditView.error (EditView.handleEdit_settle (Rejected e) c)
      = Some EditView.editFailedMessage).
Proof.
  split; [|split; [|split]].
  - intros nav e base64 c.
    unfold processImage, processImage_settle, startCamera_begin. cbn [negb].
    destruct (mediaDevices nav); cbn [negb fst].
    + split.
      * simpl. rewrite stopCamera_error. discriminate.
      * unfold startCamera_resume, startCamera_preferred, startCamera_fallback.
        destruct (getUserMedia nav preferredConstraints) as [s1|e1].
        -- rewrite attachStream_error; [discriminate|].
           simpl. now rewrite stopCamera_error.
        -- destruct (getUserMedia nav fallbackConstraints) as [s2|e2].
           ++ rewrite attachStream_error; [discriminate|].
              simpl. now rewrite stopCamera_error.
           ++ simpl. intros [= H]. exact (cameraErrorMessage_not_analysis _ H).
    + split; discriminate.
  - vm_compute. repeat split.
  - intros nav e base64 c. split; reflexivity.
  - reflexivity.
Qed.

(** C8: [stopCamera] run twice leaves what one run leaves, trace
    included; it always ends with no stream held; and when none is
    held it stops nothing and only sets [isCameraReady] to false. *)
Theorem stopCamera_idempotent :
  forall c : Component,
    stopCamera (stopCamera c) = stopCamera c
    /\ streamRef (stopCamera c) = None
    /\ (streamRef c = None ->
        stopCamera c = setIsCameraReady false c
        /\ trace (stopCamera c) = trace c
        /\ streamRef (stopCamera c) = streamRef c).
Proof.
  intros c. split; [|split].
  - unfold stopCamera at 1. rewrite stopCamera_streamRef.
    unfold stopCamera. destruct (streamRef c); reflexivity.
  - apply stopCamera_streamRef.
  - intros H. unfold stopCamera. rewrite H. repeat split. simpl. now rewrite H.
Qed.

Lemma stopCamera_idempotent_witness :
  stopCamera (stopCamera cameraReady) = stopCamera cameraReady
  /\ stopCamera mounted = setIsCameraReady false mounted
  /\ trace (stopCamera mounted) = trace mounted.
Proof.
  split.
  - exact (proj1 (stopCamera_idempotent cameraReady)).
  - destruct (proj2 (proj2 (stopCamera_idempotent mounted)) eq_refl) as [H1 [H2 _]].
    split; [exact H1|exact H2].
Defined.

(** ** The edit view and the triggers of both views *)

Section EditFacts.

Variable trim : string -> string.

Lemma clickApply_launches (c c' : EditView.Component) (launched : bool) :
  EditView.clickApply trim c = Some (c', launched) ->
  EditView.loading c = false /\ launched = true /\ EditView.loading c' = true.
Proof.
  unfold EditView.clickApply, EditView.showsWorkspace, EditView.applyDisabled,
    EditView.handleEdit_begin.
  destruct (EditView.originalImage c) as [image|]; [|discriminate].
  destruct (truthy_str (Some image)); [|discriminate].
  destruct (EditView.loading c); [discriminate|].
  destruct (truthy_str (Some (trim (EditView.prompt c)))); [|discriminate].
  simpl. intros [= <- <-]. auto.
Qed.

(** In every state the edit view can reach, the number of [editImage]
    calls awaiting settlement is one while [loading] is set and zero
    otherwise. *)
Lemma edit_inFlight_is_loading (s : EditView.Session) :
  EditView.reachable trim s ->
  EditView.inFlight s = if EditView.loading (EditView.view s) then 1 else 0.
Proof.
  induction 1 as [|s s' _ IH Hstep]; [reflexivity|].
  destruct Hstep as [s c' launched Hclick | s r Hpos | s Hw | s file Hw | s typed Hw];
    cbn [EditView.view EditView.inFlight].
  - destruct (clickApply_launches _ _ _ Hclick) as [H0 [-> ->]].
    rewrite H0 in IH. rewrite IH. reflexivity.
  - destruct (EditView.loading (EditView.view s)); [|lia].
    rewrite IH. destruct r; reflexivity.
  - exact IH.
  - destruct file; exact IH.
  - exact IH.
Qed.

End EditFacts.


(** * Further properties of the code *)

(** ** The gateways *)

Lemma scanParts_found (ps : list Part) :
  (exists url, scanParts ps = Some url)
  <-> exists p, In p ps /\ inlineData p <> None.
Proof.
  induction ps as [|q ps IH]; simpl.
  - split; [intros [url H]; discriminate|intros [p [[] _]]].
  - destruct (inlineData q) as [b|] eqn:E.
    + split; [|intros _; eexists; reflexivity].
      intros _. exists q. split; [now left|]. rewrite E. discriminate.
    + rewrite IH. split.
      * intros [p [Hin Hp]]. exists p. split; [now right|exact Hp].
      * intros [p [[<-|Hin] Hp]]; [now rewrite E in Hp|]. now exists p.
Qed.

Lemma afterFirstComma_png_prefix (payload : string) :
  afterFirstComma ("data:image/png;base64," ++ payload) = Some payload.
Proof. reflexivity. Qed.

(** X1: once the model has responded, [editImage] succeeds exactly
    when the parts of the first candidate hold a part with inline data;
    other candidates, text parts and the response text play no role. *)
Theorem editImage_succeeds_iff_inline_part :
  forall (ai : GoogleGenAI) (base64Image prompt : string)
         (response : GenerateContentResponse),
    construct ai = None ->
    generateContent ai (editRequest base64Image prompt) = Fulfilled response ->
    ((exists url, outcome (editImage ai base64Image prompt) = Fulfilled url)
     <-> exists ps p, contentParts response = Some ps /\ In p ps /\ inlineData p <> None).
Proof.
  intros ai base64Image prompt response Hc Hr.
  unfold editImage. rewrite Hc, Hr.
  destruct (contentParts response) as [ps|] eqn:Hps.
  - rewrite (editImage_try_parts _ _ Hps).
    destruct (scanParts ps) as [url|] eqn:S; cbn [outcome].
    + split; [|intros _; now exists url].
      intros _. destruct (proj1 (scanParts_found ps)) as [p Hp]; [now exists url|].
      now exists ps, p.
    + split; [intros [url H]; discriminate|].
      intros [ps' [p [[= <-] Hp]]].
      destruct (proj2 (scanParts_found ps)) as [url H]; [now exists p|]. congruence.
  - assert (E : exists err, editImage_try response = inl err).
    { unfold contentParts in Hps. unfold editImage_try.
      destruct (candidates response) as [[|cand cands]|]; try (eexists; reflexivity).
      destruct (content cand) as [c|]; [|eexists; reflexivity].
      rewrite Hps. eexists; reflexivity. }
    destruct E as [err ->]. cbn [outcome].
    split; [intros [url H]; discriminate|intros [ps [p [H _]]]; discriminate].
Qed.

Lemma editImage_succeeds_iff_inline_part_witness :
  (exists url,
      outcome (editImage (respondsParts [textPart "Here you go"; pngPart "iVBORw0KGgo="])
                 sampleImage "p") = Fulfilled url)
  <-> exists ps p,
        contentParts
          (mkResponse
             (Some [mkCandidate (Some (mkContent
                (Some [textPart "Here you go"; pngPart "iVBORw0KGgo="])))])
             None) = Some ps
        /\ In p ps /\ inlineData p <> None.
Proof.
  apply (editImage_succeeds_iff_inline_part
           (respondsParts [textPart "Here you go"; pngPart "iVBORw0KGgo="])
           sampleImage "p"); reflexivity.
Defined.

(** X2: what a call of either gateway leaves behind.  If constructing
    the client throws, the promise is rejected with that very error,
    nothing is sent and nothing is logged.  Otherwise exactly one
    request is sent, and either the call succeeds and logs nothing, or
    it is rejected with the gateway's one fixed error and logs exactly
    one entry, the cause, under the gateway's label. *)
Theorem gateway_call_accounting :
  forall (trim : string -> string) (JSON_parse : string -> option JSValue)
         (ai : GoogleGenAI) (instruction base64Image prompt : string),
    match construct ai with
    | Some e =>
        analyzeParkingSign trim JSON_parse ai instruction base64Image
          = mkCall [] [] (Rejected e)
        /\ editImage ai base64Image prompt = mkCall [] [] (Rejected e)
    | None =>
        (sent (analyzeParkingSign trim JSON_parse ai instruction base64Image)
           = [analyzeRequest instruction base64Image]
         /\ ((exists v,
                outcome (analyzeParkingSign trim JSON_parse ai instruction base64Image)
                  = Fulfilled v
                /\ console (analyzeParkingSign trim JSON_parse ai instruction base64Image)
                   = [])
             \/ (exists cause,
                   outcome (analyzeParkingSign trim JSON_parse ai instruction base64Image)
                     = Rejected (Error "Failed to analyze sign")
                   /\ console (analyzeParkingSign trim JSON_parse ai instruction base64Image)
                      = [("Analysis error:", cause)])))
        /\ (sent (editImage ai base64Image prompt) = [editRequest base64Image prompt]
            /\ ((exists url,
                   outcome (editImage ai base64Image prompt) = Fulfilled url
                   /\ console (editImage ai base64Image prompt) = [])
                \/ (exists cause,
                      outcome (editImage ai base64Image prompt)
                        = Rejected (Error "Failed to edit image")
                      /\ console (editImage ai base64Image prompt)
                         = [("Image editing error:", cause)])))
    end.
Proof.
  intros trim JSON_parse ai instruction base64Image prompt.
  unfold analyzeParkingSign, editImage.
  destruct (construct ai) as [e|]; [split; reflexivity|].
  split.
  - destruct (generateContent ai (analyzeRequest instruction base64Image)) as [r|e].
    + destruct (analyzeParkingSign_try trim JSON_parse r) as [err|v]; cbn.
      * split; [reflexivity|right; now exists err].
      * split; [reflexivity|left; now exists v].
    + cbn. split; [reflexivity|right; now exists e].
  - destruct (generateContent ai (editRequest base64Image prompt)) as [r|e].
    + destruct (editImage_try r) as [err|url]; cbn.
      * split; [reflexivity|right; now exists err].
      * split; [reflexivity|left; now exists url].
    + cbn. split; [reflexivity|right; now exists e].
Qed.

Lemma editImage_fulfilled_payload (ai : GoogleGenAI) (base64Image prompt url : string) :
  outcome (editImage ai base64Image prompt) = Fulfilled url ->
  exists payload, url = "data:image/png;base64," ++ payload.
Proof.
  unfold editImage.
  destruct (construct ai); [discriminate|].
  destruct (generateContent ai (editRequest base64Image prompt)) as [response|e];
    [|discriminate].
  destruct (editImage_try response) as [err|u] eqn:E; cbn [outcome]; [discriminate|].
  intros [= <-]. unfold editImage_try in E.
  destruct (candidates response) as [[|cand cands]|]; try discriminate.
  destruct (content cand) as [c|]; try discriminate.
  destruct (parts c) as [ps|]; try discriminate.
  destruct (scanParts ps) as [u'|] eqn:S; try discriminate.
  injection E as <-. exact (scanParts_prefix _ _ S).
Qed.

(** X3: the string [editImage] returns can be handed back to either
    gateway: when the data the model returned holds no comma, as base64
    text never does, the request built from the returned URL carries
    exactly that data, now labelled [image/jpeg] although the URL says
    [image/png]. *)
Theorem edited_image_can_be_sent_again :
  forall (ai : GoogleGenAI) (base64Image prompt url : string),
    outcome (editImage ai base64Image prompt) = Fulfilled url ->
    exists payload,
      url = "data:image/png;base64," ++ payload
      /\ (afterFirstComma payload = None ->
          forall instruction prompt',
            imagePayloads [analyzeRequest instruction url]
              = [mkBlob (Some payload) (Some "image/jpeg")]
            /\ imagePayloads [editRequest url prompt']
              = [mkBlob (Some payload) (Some "image/jpeg")]).
Proof.
  intros ai base64Image prompt url H.
  destruct (editImage_fulfilled_payload ai base64Image prompt url H) as [payload ->].
  exists payload. split; [reflexivity|].
  intros Hno instruction prompt'.
  assert (E : nth_error (split_comma ("data:image/png;base64," ++ payload)) 1
              = Some payload).
  { rewrite split_comma_second, afterFirstComma_png_prefix. simpl.
    now rewrite uptoComma_no_comma. }
  unfold imagePayloads, analyzeRequest, editRequest, imagePart. cbn [flat_map contents
    inlineData textPart app]. rewrite E. split; reflexivity.
Qed.

Lemma edited_image_can_be_sent_again_witness :
  exists payload,
    "data:image/png;base64,iVBORw0KGgo=" = "data:image/png;base64," ++ payload
    /\ (afterFirstComma payload = None ->
        forall instruction prompt',
          imagePayloads [analyzeRequest instruction "data:image/png;base64,iVBORw0KGgo="]
            = [mkBlob (Some payload) (Some "image/jpeg")]
          /\ imagePayloads [editRequest "data:image/png;base64,iVBORw0KGgo=" prompt']
            = [mkBlob (Some payload) (Some "image/jpeg")]).
Proof.
  apply (edited_image_can_be_sent_again
           (respondsParts [pngPart "iVBORw0KGgo="]) sampleImage "p").
  reflexivity.
Defined.

(** ** The scanner: one handler at a time *)

Lemma stopCamera_stops_held (c : Component) (t : nat) :
  In t (heldTracks c) -> In (TrackStop t) (trace (stopCamera c)).
Proof.
  intros H. rewrite stopCamera_trace. apply in_or_app. right. now apply in_map.
Qed.

Lemma no_stop_in_requests (evs : list Event) :
  Forall (fun e => match e with TrackStop _ => False | _ => True end) evs ->
  forall t, ~ In (TrackStop t) evs.
Proof.
  intros H t Hin. rewrite Forall_forall in H. exact (H _ Hin).
Qed.

(** X4: when either request yields a stream, [startCamera] ends with
    the camera not flagged and no error; every track held before was
    stopped before the first request and nothing is stopped after it.
    The stream is attached and the camera ready only if a [<video>] is
    mounted at that moment: otherwise the stream is neither kept nor
    stopped, and the view stays not ready without any error. *)
Theorem startCamera_attaches_acquired_stream :
  forall (nav : Navigator) (c : Component) (stream : MediaStream),
    mediaDevices nav = true ->
    (getUserMedia nav preferredConstraints = Fulfilled stream
     \/ (exists e1, getUserMedia nav preferredConstraints = Rejected e1
                    /\ getUserMedia nav fallbackConstraints = Fulfilled stream)) ->
    cameraNotFound (startCamera nav c) = false
    /\ error (startCamera nav c) = None
    /\ (exists evs,
          trace (startCamera nav c)
            = (trace c ++ map TrackStop (heldTracks c) ++ evs)%list
          /\ forall t, ~ In (TrackStop t) evs)
    /\ match videoRef c with
       | Some _ =>
           streamRef (startCamera nav c) = Some stream
           /\ isCameraReady (startCamera nav c) = true
           /\ videoRef (startCamera nav c) = Some (mkVideo (Some stream))
       | None =>
           streamRef (startCamera nav c) = None
           /\ isCameraReady (startCamera nav c) = false
       end.
Proof.
  intros nav c stream Hm Hget.
  unfold startCamera, startCamera_begin, startCamera_resume, startCamera_preferred,
    startCamera_fallback.
  rewrite Hm. cbn [negb].
  set (c0 := c |> setCameraNotFound false |> setError None).
  assert (Hheld : heldTracks c0 = heldTracks c) by reflexivity.
  pose proof (stopCamera_trace c0) as Hst. rewrite Hheld in Hst.
  change (trace c0) with (trace c) in Hst.
  pose proof (stopCamera_streamRef c0) as Hsr.
  assert (Hcnf : cameraNotFound (stopCamera c0) = false)
    by (unfold stopCamera; destruct (streamRef c0); reflexivity).
  assert (Herr : error (stopCamera c0) = None) by (now rewrite stopCamera_error).
  assert (Hrdy : isCameraReady (stopCamera c0) = false)
    by (unfold stopCamera; destruct (streamRef c0); reflexivity).
  assert (Hv : videoRef (stopCamera c0) = videoRef c)
    by (unfold stopCamera; destruct (streamRef c0); reflexivity).
  destruct Hget as [Hp | [e1 [Hp Hf]]]; rewrite Hp; [|rewrite Hf];
    unfold attachStream; cbn [videoRef emit set_trace]; rewrite Hv;
    destruct (videoRef c); cbn; rewrite ?Hcnf, ?Herr, ?Hsr, ?Hrdy, ?Hst;
    repeat split; try reflexivity;
    eexists; rewrite <- ?app_assoc;
    (split; [reflexivity|]); apply no_stop_in_requests; repeat constructor.
Qed.

Lemma startCamera_attaches_acquired_stream_witness :
  cameraNotFound (startCamera frontCameraOnly mounted) = false
  /\ streamRef (startCamera frontCameraOnly mounted) = Some (mkStream [7])
  /\ isCameraReady (startCamera frontCameraOnly mounted) = true.
Proof.
  destruct (startCamera_attaches_acquired_stream frontCameraOnly mounted (mkStream [7])
              eq_refl
              (or_intror (ex_intro _ (mkError "OverconstrainedError" "facingMode")
                            (conj eq_refl eq_refl))))
    as [H1 [_ [_ [H2 [H3 _]]]]].
  split; [exact H1|split; [exact H2|exact H3]].
Defined.

Lemma processImage_begin_fields (base64 : string) (c : Component) :
  capturedImage (processImage_begin base64 c) = Some base64
  /\ loading (processImage_begin base64 c) = true
  /\ error (processImage_begin base64 c) = None
  /\ result (processImage_begin base64 c) = JNull
  /\ streamRef (processImage_begin base64 c) = None
  /\ isCameraReady (processImage_begin base64 c) = false
  /\ cameraNotFound (processImage_begin base64 c) = cameraNotFound c
  /\ videoRef (processImage_begin base64 c) = videoRef c
  /\ trace (processImage_begin base64 c)
     = (trace c ++ map TrackStop (heldTracks c) ++ [AnalyzeParkingSign base64])%list.
Proof.
  unfold processImage_begin, stopCamera, heldTracks.
  destruct c as [l r e rd ci cnf v cv [s|] tr]; cbn; repeat split;
    now rewrite <- ?app_assoc, ?app_nil_r.
Qed.

(** X5: when [processImage] runs from its call to the settlement of
    the analysis with no other handler or promise in between, and the
    analysis succeeds, the value is stored as it came, the spinner is
    gone, and the camera is off at that point: no stream is held, no
    camera request was made, whatever the closure saw.  When
    the value is falsy ([null], [false], zero, the empty string) the
    view shows neither a result nor an error and the capture button
    cannot be clicked; if, besides, the camera was flagged unavailable
    and the picture is not the empty string, the view presents no
    button at all. *)
Theorem processImage_success_leaves_camera_off :
  forall (seen : bool) (nav : Navigator) (v : JSValue) (base64 : string) (c : Component),
    result (processImage seen nav (Fulfilled v) base64 c) = v
    /\ loading (processImage seen nav (Fulfilled v) base64 c) = false
    /\ error (processImage seen nav (Fulfilled v) base64 c) = None
    /\ capturedImage (processImage seen nav (Fulfilled v) base64 c) = Some base64
    /\ streamRef (processImage seen nav (Fulfilled v) base64 c) = None
    /\ isCameraReady (processImage seen nav (Fulfilled v) base64 c) = false
    /\ trace (processImage seen nav (Fulfilled v) base64 c)
       = (trace c ++ map TrackStop (heldTracks c) ++ [AnalyzeParkingSign base64])%list
    /\ (truthy v = false ->
        showsResultPanel (processImage seen nav (Fulfilled v) base64 c) = false
        /\ showsErrorPanel (processImage seen nav (Fulfilled v) base64 c) = false
        /\ (forall context frame,
              clickCapture context frame (processImage seen nav (Fulfilled v) base64 c)
              = None)
        /\ (cameraNotFound c = true -> base64 <> EmptyString ->
            presentsAnyControl (processImage seen nav (Fulfilled v) base64 c) = false)).
Proof.
  intros seen nav v base64 c.
  destruct (processImage_begin_fields base64 c)
    as [Hci [Hl [He [Hr [Hs [Hrd [Hcnf [Hv Htr]]]]]]]].
  unfold processImage, processImage_settle. cbn [fst snd].
  set (c1 := processImage_begin base64 c) in *.
  change (result (c1 |> setResult v |> setLoading false)) with v.
  change (loading (c1 |> setResult v |> setLoading false)) with false.
  change (error (c1 |> setResult v |> setLoading false)) with (error c1).
  change (capturedImage (c1 |> setResult v |> setLoading false)) with (capturedImage c1).
  change (streamRef (c1 |> setResult v |> setLoading false)) with (streamRef c1).
  change (isCameraReady (c1 |> setResult v |> setLoading false)) with (isCameraReady c1).
  change (trace (c1 |> setResult v |> setLoading false)) with (trace c1).
  do 7 (split; [auto|]).
  intros Hfalsy.
  assert (Hres : showsResultPanel (c1 |> setResult v |> setLoading false) = false)
    by exact Hfalsy.
  assert (Herr : showsErrorPanel (c1 |> setResult v |> setLoading false) = false).
  { unfold showsErrorPanel.
    change (error (c1 |> setResult v |> setLoading false)) with (error c1).
    now rewrite He. }
  split; [exact Hres|]. split; [exact Herr|]. split.
  - intros context frame. unfold clickCapture, captureDisabled.
    change (isCameraReady (c1 |> setResult v |> setLoading false))
      with (isCameraReady c1).
    rewrite Hrd. cbn [negb]. now rewrite andb_false_r.
  - intros Hflag Hne. unfold presentsAnyControl. rewrite Hres, Herr.
    unfold showsCapturePanel, showsGalleryFallback.
    change (cameraNotFound (c1 |> setResult v |> setLoading false))
      with (cameraNotFound c1).
    change (capturedImage (c1 |> setResult v |> setLoading false))
      with (capturedImage c1).
    rewrite Hcnf, Hflag, Hci. cbn [negb]. rewrite andb_false_r.
    destruct base64; [contradiction|reflexivity].
Qed.

Lemma processImage_success_leaves_camera_off_witness :
  showsResultPanel
    (processImage true noCamera (Fulfilled JNull) sampleImage (startCamera noCamera mounted))
  = false
  /\ presentsAnyControl
       (processImage true noCamera (Fulfilled JNull) sampleImage
          (startCamera noCamera mounted))
     = false.
Proof.
  destruct (processImage_success_leaves_camera_off true noCamera JNull sampleImage
              (startCamera noCamera mounted))
    as [_ [_ [_ [_ [_ [_ [_ H]]]]]]].
  destruct (H eq_refl) as [H1 [_ [_ H2]]].
  split; [exact H1|]. apply H2; [reflexivity|discriminate].
Defined.

(** X6: Scan Another Sign (or Retry Camera) on a device whose camera
    opens: whatever was on screen, the captured picture, the result
    and the error are cleared, every track still held is stopped, the
    new stream is attached, and the capture button is on screen and
    enabled again. *)
Theorem reset_returns_to_live_camera :
  forall (nav : Navigator) (c : Component) (stream : MediaStream),
    mediaDevices nav = true ->
    getUserMedia nav preferredConstraints = Fulfilled stream ->
    videoRef c <> None ->
    loading c = false ->
    capturedImage (ScannerSession.handleReset_run false nav c) = None
    /\ result (ScannerSession.handleReset_run false nav c) = JNull
    /\ error (ScannerSession.handleReset_run false nav c) = None
    /\ streamRef (ScannerSession.handleReset_run false nav c) = Some stream
    /\ (forall t, In t (heldTracks c) ->
                  In (TrackStop t) (trace (ScannerSession.handleReset_run false nav c)))
    /\ showsCapturePanel (ScannerSession.handleReset_run false nav c) = true
    /\ captureDisabled (ScannerSession.handleReset_run false nav c) = false.
Proof.
  intros nav c stream Hm Hp Hv Hl.
  unfold ScannerSession.handleReset_run, handleReset, startCamera_begin,
    startCamera_resume, startCamera_preferred.
  rewrite Hm, Hp. cbn [negb].
  destruct c as [l r e rd ci cnf [v|] cv sr tr]; [|contradiction].
  cbn in Hl. subst l.
  destruct sr as [s|]; cbn; repeat split; auto.
  - intros t Ht. apply in_or_app. left. apply in_or_app. right. now apply in_map.
  - intros t [].
Qed.

Lemma reset_returns_to_live_camera_witness :
  capturedImage
    (ScannerSession.handleReset_run false workingCamera
       (processImage false workingCamera (Fulfilled shapedAnalysisSample) sampleImage
          cameraReady)) = None
  /\ streamRef
       (ScannerSession.handleReset_run false workingCamera
          (processImage false workingCamera (Fulfilled shapedAnalysisSample) sampleImage
             cameraReady)) = Some (mkStream [1; 2]).
Proof.
  destruct (reset_returns_to_live_camera workingCamera
              (processImage false workingCamera (Fulfilled shapedAnalysisSample)
                 sampleImage cameraReady)
              (mkStream [1; 2]) eq_refl eq_refl)
    as [H1 [_ [_ [H2 _]]]]; [discriminate|reflexivity|].
  split; [exact H1|exact H2].
Defined.

Lemma startCamera_resume_errorMeansUnavailable (nav : Navigator) (c : Component) :
  error c = None -> cameraNotFound c = false ->
  errorMeansUnavailable (startCamera_resume nav c).
Proof.
  intros He Hc. unfold errorMeansUnavailable, startCamera_resume, startCamera_preferred,
    startCamera_fallback, attachStream.
  destruct (getUserMedia nav preferredConstraints) as [s1|e1]; cbn [fst snd].
  - destruct (videoRef c); cbn; [discriminate|]. rewrite He. discriminate.
  - destruct (getUserMedia nav fallbackConstraints) as [s2|e2].
    + cbn [videoRef emit set_trace]. destruct (videoRef c); cbn; [discriminate|].
      rewrite He. discriminate.
    + reflexivity.
Qed.

Lemma startCamera_errorMeansUnavailable (nav : Navigator) (c : Component) :
  errorMeansUnavailable (startCamera nav c).
Proof.
  unfold startCamera, startCamera_begin.
  destruct (mediaDevices nav); cbn [negb].
  - apply startCamera_resume_errorMeansUnavailable.
    + cbn. now rewrite stopCamera_error.
    + cbn. unfold stopCamera. destruct (streamRef _); reflexivity.
  - intros _. reflexivity.
Qed.

Lemma processImage_errorMeansUnavailable (nav : Navigator) (r : Settled JSValue)
    (base64 : string) (c : Component) :
  errorMeansUnavailable (processImage (cameraNotFound c) nav r base64 c).
Proof.
  destruct (processImage_begin_fields base64 c)
    as [_ [_ [He [_ [_ [_ [Hcnf _]]]]]]].
  unfold processImage, processImage_settle.
  set (c1 := processImage_begin base64 c) in *.
  destruct r as [v|e].
  - cbn [fst snd]. unfold errorMeansUnavailable.
    change (error (c1 |> setResult v |> setLoading false)) with (error c1).
    rewrite He. discriminate.
  - destruct (cameraNotFound c) eqn:Hflag; cbn [negb].
    + intros _. exact Hcnf.
    + unfold startCamera_begin. destruct (mediaDevices nav); cbn [negb].
      * apply startCamera_resume_errorMeansUnavailable.
        -- cbn. now rewrite stopCamera_error.
        -- cbn. unfold stopCamera. destruct (streamRef _); reflexivity.
      * intros _. reflexivity.
Qed.

Lemma handleReset_run_errorMeansUnavailable (nav : Navigator) (c : Component) :
  errorMeansUnavailable (ScannerSession.handleReset_run (cameraNotFound c) nav c).
Proof.
  unfold ScannerSession.handleReset_run, handleReset.
  destruct (cameraNotFound c) eqn:Hflag; cbn [negb].
  - intros H. discriminate.
  - unfold startCamera_begin. destruct (mediaDevices nav); cbn [negb].
    + apply startCamera_resume_errorMeansUnavailable.
      * cbn. now rewrite stopCamera_error.
      * cbn. unfold stopCamera. destruct (streamRef _); reflexivity.
    + intros _. reflexivity.
Qed.

(** X7: when handlers run one at a time, in every state the scanner
    rests in an error on screen comes with the camera flagged
    unavailable, so that the Retry Camera button, shown only for an
    error without that flag, is never on screen: the error panel
    offers Upload Photo alone. *)
Theorem retry_camera_never_shown :
  forall c : Component,
    ScannerSession.atRest c ->
    showsRetryCamera c = false
    /\ (showsErrorPanel c = true -> cameraNotFound c = true).
Proof.
  intros c H.
  assert (K : errorMeansUnavailable c).
  { induction H as [nav | c nav r base64 _ _ | c nav _ _ _ | c _ IH].
    - apply startCamera_errorMeansUnavailable.
    - apply processImage_errorMeansUnavailable.
    - apply handleReset_run_errorMeansUnavailable.
    - unfold errorMeansUnavailable, ScannerSession.commit in *.
      destruct (showsVideo c); [destruct (videoRef c)|]; exact IH. }
  split; [|exact K].
  unfold showsRetryCamera. unfold errorMeansUnavailable in K.
  destruct (truthy_str (error c)); [|reflexivity].
  now rewrite K.
Qed.

Lemma retry_camera_never_shown_witness :
  showsRetryCamera
    (processImage false workingCamera (Rejected (Error "Failed to analyze sign"))
       sampleImage cameraReady) = false
  /\ showsRetryCamera (startCamera noCamera mounted) = false.
Proof.
  split.
  - apply (retry_camera_never_shown
             (processImage (cameraNotFound cameraReady) workingCamera
                (Rejected (Error "Failed to analyze sign")) sampleImage cameraReady)).
    apply ScannerSession.rest_analysis. apply ScannerSession.rest_mount.
  - apply (retry_camera_never_shown (startCamera noCamera mounted)).
    apply ScannerSession.rest_mount.
Defined.

(** ** The scanner: handlers interleaved *)

Section SessionFacts.

Import ScannerSession.

Lemma stopCamera_not_ready (c : Component) : isCameraReady (stopCamera c) = false.
Proof. unfold stopCamera. destruct (streamRef c); reflexivity. Qed.

Lemma attachStream_ready (stream : MediaStream) (c : Component) :
  readyHoldsStream c -> readyHoldsStream (attachStream stream c).
Proof.
  unfold readyHoldsStream, attachStream. destruct (videoRef c); cbn; [discriminate|auto].
Qed.

Lemma startCamera_begin_ready (nav : Navigator) (c : Component) :
  readyHoldsStream c -> readyHoldsStream (fst (startCamera_begin nav c)).
Proof.
  unfold readyHoldsStream, startCamera_begin.
  destruct (mediaDevices nav); cbn [negb fst].
  - intros _. cbn. rewrite stopCamera_not_ready. discriminate.
  - auto.
Qed.

Lemma processImage_begin_ready (base64 : string) (c : Component) :
  readyHoldsStream (processImage_begin base64 c).
Proof.
  unfold readyHoldsStream.
  destruct (processImage_begin_fields base64 c) as [_ [_ [_ [_ [_ [H _]]]]]].
  rewrite H. discriminate.
Qed.

Lemma processImage_settle_ready (seen : bool) (nav : Navigator) (r : Settled JSValue)
    (c : Component) :
  readyHoldsStream c -> readyHoldsStream (fst (processImage_settle seen nav r c)).
Proof.
  intros H. unfold processImage_settle.
  destruct r as [v|e]; [exact H|].
  destruct seen; cbn [negb]; [exact H|].
  pose proof (startCamera_begin_ready nav (c |> setError (Some analysisFailedMessage)) H)
    as H'.
  destruct (startCamera_begin nav (c |> setError (Some analysisFailedMessage))).
  exact H'.
Qed.

Lemma handleReset_ready (seen : bool) (nav : Navigator) (c : Component) :
  readyHoldsStream c -> readyHoldsStream (fst (handleReset seen nav c)).
Proof.
  intros H. unfold handleReset. destruct seen; cbn [negb]; [exact H|].
  apply startCamera_begin_ready. exact H.
Qed.

Lemma step_ready (s s' : Session) :
  step s s' -> readyHoldsStream (view s) -> readyHoldsStream (view s').
Proof.
  intros Hstep H.
  destruct Hstep as [s context frame c' Hclick | s | s pre seen post dataURL _
                    | s pre seen post nav r _ | s nav _ | s pre post r _
                    | s pre post r _ | s]; cbn [view].
  - unfold clickCapture in Hclick.
    destruct (showsCapturePanel (view s) && negb (captureDisabled (view s)));
      [|discriminate].
    injection Hclick as <-. unfold handleCapture.
    destruct (videoRef (view s)), (canvasRef (view s)), context;
      auto using processImage_begin_ready.
  - exact H.
  - apply processImage_begin_ready.
  - now apply processImage_settle_ready.
  - now apply handleReset_ready.
  - destruct r as [stream|e]; cbn [startCamera_preferred fst];
      [now apply attachStream_ready|exact H].
  - destruct r as [stream|e]; cbn [startCamera_fallback];
      [now apply attachStream_ready|exact H].
  - unfold commit. destruct (showsVideo (view s)); [destruct (videoRef (view s))|];
      exact H.
Qed.

Lemma onMount_view (nav : Navigator) :
  view (onMount nav) = fst (startCamera_begin nav mounted).
Proof. unfold onMount. now destruct (startCamera_begin nav mounted). Qed.

Lemma onMount_analyses (nav : Navigator) : analyses (onMount nav) = [].
Proof. unfold onMount. now destruct (startCamera_begin nav mounted). Qed.

End SessionFacts.

(** X8: however the handlers and the promises they await interleave,
    whenever [isCameraReady] is set a stream is held; hence whenever a
    click on the capture button runs [handleCapture], the frame it
    draws comes from a stream the view holds. *)
Theorem ready_camera_holds_stream :
  forall s : ScannerSession.Session,
    ScannerSession.reachable s ->
    (isCameraReady (ScannerSession.view s) = true ->
     streamRef (ScannerSession.view s) <> None)
    /\ (forall context frame c',
          clickCapture context frame (ScannerSession.view s) = Some c' ->
          streamRef (ScannerSession.view s) <> None).
Proof.
  intros s Hs.
  assert (H : readyHoldsStream (ScannerSession.view s)).
  { induction Hs as [nav | s s' _ IH Hstep].
    - rewrite onMount_view. apply startCamera_begin_ready. intros H. discriminate.
    - exact (step_ready _ _ Hstep IH). }
  split; [exact H|].
  intros context frame c' Hclick. apply H.
  unfold clickCapture, captureDisabled in Hclick.
  destruct (isCameraReady (ScannerSession.view s)); [reflexivity|].
  cbn [negb] in Hclick. rewrite andb_false_r in Hclick. discriminate.
Qed.

Lemma ready_camera_holds_stream_witness :
  isCameraReady (fst (startCamera_preferred (Fulfilled (mkStream [1; 2]))
                        (fst (startCamera_begin workingCamera mounted)))) = true
  /\ streamRef (fst (startCamera_preferred (Fulfilled (mkStream [1; 2]))
                       (fst (startCamera_begin workingCamera mounted)))) <> None.
Proof.
  split; [reflexivity|].
  apply (ready_camera_holds_stream
           (ScannerSession.mkSession
              (fst (startCamera_preferred (Fulfilled (mkStream [1; 2]))
                      (fst (startCamera_begin workingCamera mounted))))
              [] [] [])); [|reflexivity].
  apply (ScannerSession.reach_step (ScannerSession.onMount workingCamera)).
  - apply ScannerSession.reach_mount.
  - apply (ScannerSession.step_preferred (ScannerSession.onMount workingCamera)
             [] [] (Fulfilled (mkStream [1; 2]))).
    reflexivity.
Defined.

Section SessionCounting.

Import ScannerSession.

Lemma analyzeCalls_app (xs ys : list Event) :
  analyzeCalls (xs ++ ys) = (analyzeCalls xs ++ analyzeCalls ys)%list.
Proof. unfold analyzeCalls. apply flat_map_app. Qed.

Lemma analyzeCalls_stops (ts : list nat) : analyzeCalls (map TrackStop ts) = [].
Proof. induction ts as [|t ts IH]; [reflexivity|exact IH]. Qed.

Lemma processImage_begin_calls (base64 : string) (c : Component) :
  analyzeCalls (trace (processImage_begin base64 c))
  = (analyzeCalls (trace c) ++ [base64])%list.
Proof.
  destruct (processImage_begin_fields base64 c) as [_ [_ [_ [_ [_ [_ [_ [_ ->]]]]]]]].
  now rewrite !analyzeCalls_app, analyzeCalls_stops.
Qed.

Lemma newCalls_begin (base64 : string) (c : Component) :
  newCalls c (processImage_begin base64 c) = [cameraNotFound c].
Proof.
  unfold newCalls. rewrite processImage_begin_calls, length_app. cbn [List.length].
  replace (List.length (analyzeCalls (trace c)) + 1
           - List.length (analyzeCalls (trace c))) with 1 by lia.
  reflexivity.
Qed.

Lemma newCalls_same (c : Component) : newCalls c c = [].
Proof. unfold newCalls. now rewrite Nat.sub_diag. Qed.

Lemma startCamera_begin_loading (nav : Navigator) (c : Component) :
  loading (fst (startCamera_begin nav c)) = loading c.
Proof.
  unfold startCamera_begin. destruct (mediaDevices nav); cbn [negb fst]; [|reflexivity].
  cbn. unfold stopCamera. destruct (streamRef _); reflexivity.
Qed.

Lemma attachStream_loading (stream : MediaStream) (c : Component) :
  loading (attachStream stream c) = loading c.
Proof. unfold attachStream. destruct (videoRef c); reflexivity. Qed.

Lemma processImage_settle_loading (seen : bool) (nav : Navigator) (r : Settled JSValue)
    (c : Component) :
  loading (fst (processImage_settle seen nav r c)) = false.
Proof.
  unfold processImage_settle.
  destruct r as [v|e]; [reflexivity|].
  destruct (if negb seen then _ else _). reflexivity.
Qed.

Lemma attempts_begin (k : MediaStreamConstraints) (base64 : string) (c : Component) :
  attempts k (trace (processImage_begin base64 c)) = attempts k (trace c).
Proof.
  destruct (processImage_begin_fields base64 c) as [_ [_ [_ [_ [_ [_ [_ [_ ->]]]]]]]].
  rewrite !attempts_app, attempts_stops. cbn. lia.
Qed.

End SessionCounting.

(** X9: however handlers and promises interleave, the loading overlay
    is on screen only while at least one [analyzeParkingSign] call is
    awaited: the spinner cannot outlive the calls that clear it. *)
Theorem loading_has_pending_analysis :
  forall s : ScannerSession.Session,
    ScannerSession.reachable s ->
    loading (ScannerSession.view s) = true ->
    ScannerSession.analyses s <> [].
Proof.
  intros s Hs. induction Hs as [nav | s s' _ IH Hstep].
  - rewrite onMount_view, startCamera_begin_loading. discriminate.
  - destruct Hstep as [s context frame c' Hclick | s | s pre seen post dataURL _
                      | s pre seen post nav r _ | s nav _ | s pre post r _
                      | s pre post r _ | s];
      cbn [ScannerSession.view ScannerSession.analyses].
    + unfold clickCapture in Hclick.
      destruct (showsCapturePanel (ScannerSession.view s)
                && negb (captureDisabled (ScannerSession.view s))); [|discriminate].
      injection Hclick as <-. unfold handleCapture.
      destruct (videoRef (ScannerSession.view s)), (canvasRef (ScannerSession.view s)),
        context;
        rewrite ?newCalls_begin, ?newCalls_same, ?app_nil_r; auto;
        intros _ H; now apply app_eq_nil in H.
    + exact IH.
    + intros _ H. now apply app_eq_nil in H.
    + rewrite processImage_settle_loading. discriminate.
    + unfold handleReset.
      destruct (cameraNotFound (ScannerSession.view s)); cbn [negb fst];
        [exact IH|]. now rewrite startCamera_begin_loading.
    + destruct r as [stream|e]; cbn [startCamera_preferred fst];
        [now rewrite attachStream_loading|exact IH].
    + destruct r as [stream|e]; cbn [startCamera_fallback];
        [now rewrite attachStream_loading|exact IH].
    + unfold ScannerSession.commit.
      destruct (showsVideo (ScannerSession.view s));
        [destruct (videoRef (ScannerSession.view s))|]; exact IH.
Qed.

Lemma loading_has_pending_analysis_witness :
  loading (handleFileUpload (Some sampleImage)
             (ScannerSession.view (ScannerSession.onMount workingCamera))) = true
  /\ ([] ++ [false])%list <> [].
Proof.
  split; [reflexivity|].
  apply (loading_has_pending_analysis
           (ScannerSession.mkSession
              (handleFileUpload (Some sampleImage)
                 (ScannerSession.view (ScannerSession.onMount workingCamera)))
              [] ([] ++ [false]) [ScannerSession.AwaitingPreferred])); [|reflexivity].
  apply (ScannerSession.reach_step
           (ScannerSession.mkSession
              (ScannerSession.view (ScannerSession.onMount workingCamera))
              [false] [] [ScannerSession.AwaitingPreferred])).
  - apply (ScannerSession.reach_step (ScannerSession.onMount workingCamera)).
    + apply ScannerSession.reach_mount.
    + apply (ScannerSession.step_choose (ScannerSession.onMount workingCamera)).
  - apply (ScannerSession.step_loaded
             (ScannerSession.mkSession
                (ScannerSession.view (ScannerSession.onMount workingCamera))
                [false] [] [ScannerSession.AwaitingPreferred])
             [] false [] sampleImage).
    reflexivity.
Defined.

Ltac session_fields :=
  cbn [ScannerSession.view ScannerSession.analyses ScannerSession.reads
       ScannerSession.cameras] in *.

(** X10: once the camera is flagged unavailable with no [startCamera]
    suspended, and every file load and analysis still under way was
    started from a render that saw the flag, nothing that can happen
    afterwards clears the flag or calls [getUserMedia] again: neither
    reset nor a failed analysis restarts the camera, and the capture
    button never comes back. *)
Theorem unavailable_camera_is_never_retried :
  forall s s' : ScannerSession.Session,
    unavailableForGood s ->
    ScannerSession.steps s s' ->
    unavailableForGood s'
    /\ (forall k, attempts k (trace (ScannerSession.view s'))
                  = attempts k (trace (ScannerSession.view s)))
    /\ (forall context frame,
          clickCapture context frame (ScannerSession.view s') = None).
Proof.
  intros s s' H0 Hsteps.
  assert (H : unavailableForGood s'
              /\ forall k, attempts k (trace (ScannerSession.view s'))
                           = attempts k (trace (ScannerSession.view s))).
  { induction Hsteps as [s | s s' s'' _ IH Hstep]; [now split|].
    destruct (IH H0) as [[Hflag [Hcam [Hreads Han]]] Hatt]. clear IH.
    destruct Hstep as [s' context frame c' Hclick | s' | s' pre seen post dataURL Hr
                      | s' pre seen post nav r Ha | s' nav _ | s' pre post r Hc
                      | s' pre post r Hc | s'];
      cbn [ScannerSession.view ScannerSession.analyses ScannerSession.reads
           ScannerSession.cameras] in *.
    - unfold clickCapture, showsCapturePanel in Hclick. rewrite Hflag in Hclick.
      cbn [negb] in Hclick. rewrite andb_false_r in Hclick. discriminate.
    - split; [|exact Hatt]. repeat split; session_fields; auto.
      apply Forall_app. split; [exact Hreads|]. rewrite Hflag. now constructor.
    - rewrite Hr in Hreads. apply Forall_app in Hreads. destruct Hreads as [Hpre Hpost].
      inversion Hpost as [|x l Hseen Hpost']; subst.
      cbn [handleFileUpload].
      split.
      + repeat split; session_fields; auto.
        * destruct (processImage_begin_fields dataURL (ScannerSession.view s'))
            as [_ [_ [_ [_ [_ [_ [-> _]]]]]]]. exact Hflag.
        * apply Forall_app. now split.
        * apply Forall_app. split; [exact Han|]. now constructor.
      + intros k. now rewrite attempts_begin.
    - rewrite Ha in Han. apply Forall_app in Han. destruct Han as [Hpre Hpost].
      inversion Hpost as [|x l Hseen Hpost']; subst.
      unfold processImage_settle. destruct r as [v|e]; cbn [negb fst snd];
        (split; [repeat split; session_fields; auto; try (now rewrite Hcam);
                 apply Forall_app; now split
                |exact Hatt]).
    - unfold handleReset. rewrite Hflag. cbn [negb fst snd].
      split; [|exact Hatt]. repeat split; session_fields; auto. now rewrite Hcam.
    - rewrite Hcam in Hc. now destruct pre.
    - rewrite Hcam in Hc. now destruct pre.
    - split.
      + repeat split; session_fields; auto. unfold ScannerSession.commit.
        destruct (showsVideo (ScannerSession.view s'));
          [destruct (videoRef (ScannerSession.view s'))|]; exact Hflag.
      + intros k. rewrite <- Hatt. unfold ScannerSession.commit.
        destruct (showsVideo (ScannerSession.view s'));
          [destruct (videoRef (ScannerSession.view s'))|]; reflexivity. }
  destruct H as [H1 H2]. split; [exact H1|]. split; [exact H2|].
  intros context frame. destruct H1 as [Hflag _].
  unfold clickCapture, showsCapturePanel. rewrite Hflag. cbn [negb].
  now rewrite andb_false_r.
Qed.

Lemma unavailable_camera_is_never_retried_witness :
  unavailableForGood
    (ScannerSession.mkSession
       (handleFileUpload (Some sampleImage) (ScannerSession.view cameraDenied))
       [] [true] [])
  /\ (forall k,
        attempts k (trace (handleFileUpload (Some sampleImage)
                             (ScannerSession.view cameraDenied)))
        = attempts k (trace (ScannerSession.view cameraDenied)))
  /\ (forall context frame,
        clickCapture context frame
          (handleFileUpload (Some sampleImage) (ScannerSession.view cameraDenied))
        = None).
Proof.
  apply (unavailable_camera_is_never_retried cameraDenied
           (ScannerSession.mkSession
              (handleFileUpload (Some sampleImage) (ScannerSession.view cameraDenied))
              [] [true] [])).
  - repeat split; constructor.
  - apply (ScannerSession.steps_step cameraDenied
             (ScannerSession.mkSession (ScannerSession.view cameraDenied) [true] [] [])).
    + apply (ScannerSession.steps_step cameraDenied cameraDenied).
      * apply ScannerSession.steps_refl.
      * apply (ScannerSession.step_choose cameraDenied).
    + apply (ScannerSession.step_loaded
               (ScannerSession.mkSession (ScannerSession.view cameraDenied) [true] [] [])
               [] true [] sampleImage).
      reflexivity.
Defined.

(** X11: unmounting the scanner stops every track it holds and leaves
    no stream held; a camera stream that arrives after the unmount,
    from either request, is not attached and none of its tracks is
    stopped: the view is left exactly as the unmount left it. *)
Theorem unmount_releases_camera :
  forall (c : Component),
    (forall t, In t (heldTracks c) -> In (TrackStop t) (trace (ScannerSession.unmount c)))
    /\ streamRef (ScannerSession.unmount c) = None
    /\ isCameraReady (ScannerSession.unmount c) = false
    /\ (forall stream,
          startCamera_preferred (Fulfilled stream) (ScannerSession.unmount c)
            = (ScannerSession.unmount c, false)
          /\ startCamera_fallback (Fulfilled stream) (ScannerSession.unmount c)
            = ScannerSession.unmount c)
    /\ (forall context frame,
          handleCapture context frame (ScannerSession.unmount c)
          = ScannerSession.unmount c).
Proof.
  intros c. unfold ScannerSession.unmount.
  split; [|split; [|split; [|split]]].
  - intros t Ht. exact (stopCamera_stops_held c t Ht).
  - exact (stopCamera_streamRef c).
  - exact (stopCamera_not_ready c).
  - intros stream. split; reflexivity.
  - intros context frame. reflexivity.
Qed.

(** ** The result panel *)

Section PanelFacts.

Import ScannerPanel.

Lemma strings_are_children (ds : list JSValue) :
  forallb (fun d => match d with JStr _ => true | _ => false end) ds = true ->
  forallb validChild ds = true.
Proof.
  induction ds as [|d ds IH]; [reflexivity|].
  cbn [forallb]. intros H. apply andb_prop in H. destruct H as [Hd Hds].
  rewrite (IH Hds). destruct d; try discriminate. reflexivity.
Qed.

End PanelFacts.

(** X12: a result of the declared shape, a string [status], a string
    [summary] and an array of strings under [details], always renders,
    whatever the status says: the heading is the summary, one line is
    shown per detail in order, the panel is green with the check mark
    for [ALLOWED] only, red for [FORBIDDEN], and yellow for any other
    status; every status but [ALLOWED] gets the warning sign. *)
Theorem shaped_analysis_always_renders :
  forall (v : JSValue) (status summary : string) (ds : list JSValue),
    get_field v "status" = Some (JStr status) ->
    get_field v "summary" = Some (JStr summary) ->
    get_field v "details" = Some (JArr ds) ->
    forallb (fun d => match d with JStr _ => true | _ => false end) ds = true ->
    exists panel,
      ScannerPanel.renderResult v = inr panel
      /\ ScannerPanel.heading panel = Some (JStr summary)
      /\ ScannerPanel.lines panel = ds
      /\ ScannerPanel.foreground panel = ScannerPanel.background panel
      /\ (status = "ALLOWED" ->
          ScannerPanel.background panel = ScannerPanel.Green
          /\ ScannerPanel.icon panel = ScannerPanel.CheckMark)
      /\ (status = "FORBIDDEN" ->
          ScannerPanel.background panel = ScannerPanel.Red
          /\ ScannerPanel.icon panel = ScannerPanel.WarningSign)
      /\ (status <> "ALLOWED" -> status <> "FORBIDDEN" ->
          ScannerPanel.background panel = ScannerPanel.Yellow
          /\ ScannerPanel.icon panel = ScannerPanel.WarningSign).
Proof.
  intros v status summary ds Hst Hsu Hde Hds.
  unfold ScannerPanel.renderResult. rewrite Hde, Hsu.
  cbn [ScannerPanel.validHeading ScannerPanel.validChild].
  rewrite (strings_are_children ds Hds). cbn [andb].
  eexists. split; [reflexivity|].
  cbn [ScannerPanel.heading ScannerPanel.lines ScannerPanel.foreground
       ScannerPanel.background ScannerPanel.icon].
  unfold ScannerPanel.toneOf, ScannerPanel.statusIs. rewrite Hst.
  repeat split.
  - subst status. reflexivity.
  - subst status. reflexivity.
  - subst status. reflexivity.
  - subst status. reflexivity.
  - apply String.eqb_neq in H, H0. now rewrite H, H0.
  - apply String.eqb_neq in H. now rewrite H.
Qed.

Lemma shaped_analysis_always_renders_witness :
  exists panel,
    ScannerPanel.renderResult shapedAnalysisSample = inr panel
    /\ ScannerPanel.background panel = ScannerPanel.Yellow.
Proof.
  destruct (shaped_analysis_always_renders shapedAnalysisSample "MAYBE" "Unclear sign"
              [JStr "Ask a warden"] eq_refl eq_refl eq_refl eq_refl)
    as [panel [H1 [_ [_ [_ [_ [_ H2]]]]]]].
  exists panel. split; [exact H1|].
  apply H2; discriminate.
Defined.

(** X13: a response the gateway accepts is stored as the result even
    when it is not an analysis: whenever the parsed value is truthy
    and has no array under [details], as the empty object of a blank
    response text has none, the analysis counts as a success, the error
    panel stays hidden, and the render of the result panel throws. *)
Theorem unvalidated_result_breaks_render :
  forall (trim : string -> string) (JSON_parse : string -> option JSValue)
         (ai : GoogleGenAI) (instruction base64 : string)
         (response : GenerateContentResponse) (t : string) (v : JSValue)
         (seen : bool) (nav : Navigator) (c : Component),
    construct ai = None ->
    generateContent ai (analyzeRequest instruction base64) = Fulfilled response ->
    response_text response = Some t ->
    JSON_parse (jsonInput (trim t)) = Some v ->
    truthy v = true ->
    (forall ds, get_field v "details" <> Some (JArr ds)) ->
    outcome (analyzeParkingSign trim JSON_parse ai instruction base64) = Fulfilled v
    /\ showsErrorPanel
         (processImage seen nav
            (outcome (analyzeParkingSign trim JSON_parse ai instruction base64))
            base64 c) = false
    /\ exists err,
         ScannerPanel.renderResultPanel
           (processImage seen nav
              (outcome (analyzeParkingSign trim JSON_parse ai instruction base64))
              base64 c)
         = Some (inl err).
Proof.
  intros trim JSON_parse ai instruction base64 response t v seen nav c
    Hc Hr Ht Hp Htruthy Hnoarr.
  assert (Hout : outcome (analyzeParkingSign trim JSON_parse ai instruction base64)
                 = Fulfilled v).
  { unfold analyzeParkingSign, analyzeParkingSign_try. rewrite Hc, Hr, Ht.
    change (if truthy_str (Some (trim t)) then trim t else "{}")
      with (jsonInput (trim t)).
    now rewrite Hp. }
  rewrite Hout. split; [reflexivity|].
  destruct (processImage_begin_fields base64 c) as [_ [_ [He _]]].
  unfold processImage, processImage_settle. cbn [fst snd].
  split.
  - unfold showsErrorPanel.
    change (error (processImage_begin base64 c |> setResult v |> setLoading false))
      with (error (processImage_begin base64 c)).
    now rewrite He.
  - unfold ScannerPanel.renderResultPanel, showsResultPanel.
    change (result (processImage_begin base64 c |> setResult v |> setLoading false))
      with v.
    rewrite Htruthy. unfold ScannerPanel.renderResult.
    destruct (get_field v "details") as [[| | | |ds|]|] eqn:E;
      try (eexists; reflexivity).
    exfalso. exact (Hnoarr ds eq_refl).
Qed.

Lemma unvalidated_result_breaks_render_witness :
  outcome (analyzeParkingSign Reference.trim Reference.JSON_parse (respondsText blankText)
             EmptyString sampleImage) = Fulfilled (JObj [])
  /\ showsErrorPanel
       (processImage false workingCamera
          (outcome (analyzeParkingSign Reference.trim Reference.JSON_parse
                      (respondsText blankText) EmptyString sampleImage))
          sampleImage cameraReady) = false
  /\ exists err,
       ScannerPanel.renderResultPanel
         (processImage false workingCamera
            (outcome (analyzeParkingSign Reference.trim Reference.JSON_parse
                        (respondsText blankText) EmptyString sampleImage))
            sampleImage cameraReady)
       = Some (inl err).
Proof.
  apply (unvalidated_result_breaks_render Reference.trim Reference.JSON_parse
           (respondsText blankText) EmptyString sampleImage
           (mkResponse None (Some blankText)) blankText (JObj [])
           false workingCamera cameraReady); try reflexivity.
  intros ds. discriminate.
Defined.

(** ** The edit view *)

Section EditMore.

Variable trim : string -> string.

Lemma clickApply_request (c c' : EditView.Component) (launched : bool) :
  EditView.clickApply trim c = Some (c', launched) ->
  exists image,
    EditView.originalImage c = Some image
    /\ truthy_str (Some image) = true
    /\ truthy_str (Some (trim (EditView.prompt c))) = true
    /\ c' = (c |> EditView.setLoading true |> EditView.setError None
               |> EditView.emit [EditView.EditImage image (EditView.prompt c)])
    /\ launched = true.
Proof.
  unfold EditView.clickApply, EditView.showsWorkspace, EditView.applyDisabled,
    EditView.handleEdit_begin.
  destruct (EditView.originalImage c) as [image|]; [|discriminate].
  destruct (truthy_str (Some image)) eqn:Hi; [|discriminate].
  destruct (EditView.loading c); [discriminate|].
  destruct (truthy_str (Some (trim (EditView.prompt c)))) eqn:Hp; [|discriminate].
  cbn. intros [= <- <-]. exists image. auto.
Qed.

End EditMore.

(** X14: in every state the edit view can reach, the spinner and an
    error message are never on screen together: while [loading] is set
    [error] is empty. *)
Theorem edit_never_loading_with_error :
  forall (trim : string -> string) (s : EditView.Session),
    EditView.reachable trim s ->
    EditView.loading (EditView.view s) = true ->
    EditView.error (EditView.view s) = None.
Proof.
  intros trim s Hs. induction Hs as [|s s' _ IH Hstep]; [discriminate|].
  destruct Hstep as [s c' launched Hclick | s r Hpos | s Hw | s file Hw | s typed Hw];
    cbn [EditView.view].
  - destruct (clickApply_request trim _ _ _ Hclick) as [image [_ [_ [_ [-> _]]]]].
    reflexivity.
  - destruct r; discriminate.
  - reflexivity.
  - destruct file; [reflexivity|exact IH].
  - exact IH.
Qed.

Lemma edit_never_loading_with_error_witness :
  EditView.loading (fst (EditView.handleEdit_begin Reference.trim readyToEdit)) = true
  /\ EditView.error (fst (EditView.handleEdit_begin Reference.trim readyToEdit)) = None.
Proof.
  split; [reflexivity|].
  apply (edit_never_loading_with_error Reference.trim
           (EditView.mkSession (fst (EditView.handleEdit_begin Reference.trim readyToEdit))
              (0 + 1))); [|reflexivity].
  apply (EditView.reach_step Reference.trim (EditView.mkSession readyToEdit 0)).
  - apply (EditView.reach_step Reference.trim
             (EditView.mkSession
                (EditView.handleFileChange (Some sampleImage) EditView.mounted) 0)).
    + apply (EditView.reach_step Reference.trim (EditView.mkSession EditView.mounted 0)).
      * apply EditView.reach_mounted.
      * apply (EditView.step_file Reference.trim (EditView.mkSession EditView.mounted 0)
                 (Some sampleImage)). reflexivity.
    + apply (EditView.step_prompt Reference.trim
               (EditView.mkSession
                  (EditView.handleFileChange (Some sampleImage) EditView.mounted) 0)
               "Add retro filter"). reflexivity.
  - apply (EditView.step_apply Reference.trim (EditView.mkSession readyToEdit 0)
             (fst (EditView.handleEdit_begin Reference.trim readyToEdit)) true).
    vm_compute. reflexivity.
Defined.

(** X15: every [editImage] call the edit view ever makes carries a
    picture that is not empty and a prompt that is not blank; the
    prompt is sent as typed, not trimmed. *)
Theorem edit_calls_are_meaningful :
  forall (trim : string -> string) (s : EditView.Session),
    EditView.reachable trim s ->
    Forall (fun e => meaningfulEdit trim e = true) (EditView.trace (EditView.view s)).
Proof.
  intros trim s Hs. induction Hs as [|s s' _ IH Hstep]; [constructor|].
  destruct Hstep as [s c' launched Hclick | s r Hpos | s Hw | s file Hw | s typed Hw];
    cbn [EditView.view].
  - destruct (clickApply_request trim _ _ _ Hclick) as [image [_ [Hi [Hp [-> _]]]]].
    cbn [EditView.emit EditView.set_trace EditView.trace EditView.setError
         EditView.setLoading].
    apply Forall_app. split; [exact IH|].
    constructor; [|constructor]. unfold meaningfulEdit. now rewrite Hi, Hp.
  - destruct r; exact IH.
  - exact IH.
  - destruct file; exact IH.
  - exact IH.
Qed.

Lemma edit_calls_are_meaningful_witness :
  Forall (fun e => meaningfulEdit Reference.trim e = true)
    (EditView.trace (fst (EditView.handleEdit_begin Reference.trim readyToEdit))).
Proof.
  apply (edit_calls_are_meaningful Reference.trim
           (EditView.mkSession (fst (EditView.handleEdit_begin Reference.trim readyToEdit))
              (0 + 1))).
  apply (EditView.reach_step Reference.trim (EditView.mkSession readyToEdit 0)).
  - apply (EditView.reach_step Reference.trim
             (EditView.mkSession
                (EditView.handleFileChange (Some sampleImage) EditView.mounted) 0)).
    + apply (EditView.reach_step Reference.trim (EditView.mkSession EditView.mounted 0)).
      * apply EditView.reach_mounted.
      * apply (EditView.step_file Reference.trim (EditView.mkSession EditView.mounted 0)
                 (Some sampleImage)). reflexivity.
    + apply (EditView.step_prompt Reference.trim
               (EditView.mkSession
                  (EditView.handleFileChange (Some sampleImage) EditView.mounted) 0)
               "Add retro filter"). reflexivity.
  - apply (EditView.step_apply Reference.trim (EditView.mkSession readyToEdit 0)
             (fst (EditView.handleEdit_begin Reference.trim readyToEdit)) true).
    vm_compute. reflexivity.
Defined.

(** X16: Start Over is not held back while a call is awaited, and the
    response is applied whenever it comes: from any state with a call
    in flight and the workspace on screen, the user can start over and
    choose another photo, and when the old call then succeeds its
    result is displayed in place of the new photo, with the spinner
    gone. *)
Theorem late_edit_replaces_new_photo :
  forall (trim : string -> string) (s : EditView.Session) (url newPhoto : string),
    0 < EditView.inFlight s ->
    EditView.showsWorkspace (EditView.view s) = true ->
    url <> EmptyString ->
    let s1 := EditView.mkSession (EditView.reset (EditView.view s)) (EditView.inFlight s) in
    let s2 := EditView.mkSession
                (EditView.handleFileChange (Some newPhoto) (EditView.view s1))
                (EditView.inFlight s1) in
    let s3 := EditView.mkSession
                (EditView.handleEdit_settle (Fulfilled url) (EditView.view s2))
                (EditView.inFlight s2 - 1) in
    EditView.step trim s s1 /\ EditView.step trim s1 s2 /\ EditView.step trim s2 s3
    /\ EditView.originalImage (EditView.view s3) = Some newPhoto
    /\ displayedImage (EditView.view s3) = Some url
    /\ EditView.loading (EditView.view s3) = false.
Proof.
  intros trim s url newPhoto Hpos Hw Hurl s1 s2 s3.
  split; [|split; [|split; [|split; [|split]]]].
  - apply EditView.step_reset. exact Hw.
  - apply (EditView.step_file trim s1 (Some newPhoto)). reflexivity.
  - apply (EditView.step_settle trim s2 (Fulfilled url)). exact Hpos.
  - reflexivity.
  - unfold displayedImage. cbn. destruct url; [contradiction|reflexivity].
  - reflexivity.
Qed.

Lemma late_edit_replaces_new_photo_witness :
  displayedImage
    (EditView.handleEdit_settle (Fulfilled "data:image/png;base64,T0xE")
       (EditView.handleFileChange (Some "data:image/jpeg;base64,TkVX")
          (EditView.reset (fst (EditView.handleEdit_begin Reference.trim readyToEdit)))))
  = Some "data:image/png;base64,T0xE".
Proof.
  destruct (late_edit_replaces_new_photo Reference.trim
              (EditView.mkSession
                 (fst (EditView.handleEdit_begin Reference.trim readyToEdit)) 1)
              "data:image/png;base64,T0xE" "data:image/jpeg;base64,TkVX")
    as [_ [_ [_ [_ [H _]]]]].
  - cbn. lia.
  - reflexivity.
  - discriminate.
  - exact H.
Defined.

(** X17: whenever a click on Apply Changes runs [handleEdit], exactly
    one [editImage] call is made, with the original photo and the
    prompt as typed; the view goes to loading with its error cleared,
    and the edited image of an earlier call stays in place, never
    being the picture sent. *)
Theorem apply_sends_original_photo :
  forall (trim : string -> string) (c c' : EditView.Component) (launched : bool),
    EditView.clickApply trim c = Some (c', launched) ->
    exists image,
      EditView.originalImage c = Some image
      /\ EditView.trace c'
         = (EditView.trace c ++ [EditView.EditImage image (EditView.prompt c)])%list
      /\ EditView.loading c' = true
      /\ EditView.error c' = None
      /\ EditView.editedImage c' = EditView.editedImage c
      /\ EditView.originalImage c' = EditView.originalImage c
      /\ launched = true.
Proof.
  intros trim c c' launched H.
  destruct (clickApply_request trim c c' launched H) as [image [Ho [_ [_ [-> ->]]]]].
  exists image. repeat split; auto.
Qed.

Lemma apply_sends_original_photo_witness :
  exists image,
    EditView.originalImage (EditView.setEditedImage (Some "data:image/png;base64,T0xE")
                              readyToEdit) = Some image
    /\ EditView.trace
         (fst (EditView.handleEdit_begin Reference.trim
                 (EditView.setEditedImage (Some "data:image/png;base64,T0xE") readyToEdit)))
       = ([] ++ [EditView.EditImage image "Add retro filter"])%list.
Proof.
  destruct (apply_sends_original_photo Reference.trim
              (EditView.setEditedImage (Some "data:image/png;base64,T0xE") readyToEdit)
              (fst (EditView.handleEdit_begin Reference.trim
                      (EditView.setEditedImage (Some "data:image/png;base64,T0xE")
                         readyToEdit)))
              true)
    as [image [H1 [H2 _]]].
  - vm_compute. reflexivity.
  - exists image. split; [exact H1|exact H2].
Defined.

(** ** Camera requests over a whole session *)

Section RequestCounting.

Import ScannerSession.

Lemma waitingPreferred_app (xs ys : list CameraStage) :
  waitingPreferred (xs ++ ys) = waitingPreferred xs + waitingPreferred ys.
Proof. unfold waitingPreferred. now rewrite filter_app, length_app. Qed.

Lemma waitingPreferred_cons (st : CameraStage) (cs : list CameraStage) :
  waitingPreferred (st :: cs)
  = match st with
    | AwaitingPreferred => S (waitingPreferred cs)
    | AwaitingFallback => waitingPreferred cs
    end.
Proof. destruct st; reflexivity. Qed.

Lemma waitingPreferred_nil : waitingPreferred [] = 0.
Proof. reflexivity. Qed.

Lemma stopCamera_attempts (k : MediaStreamConstraints) (c : Component) :
  attempts k (trace (stopCamera c)) = attempts k (trace c).
Proof. rewrite stopCamera_trace, attempts_app, attempts_stops. lia. Qed.

Lemma startCamera_begin_requests (nav : Navigator) (c : Component) :
  attempts fallbackConstraints (trace (fst (startCamera_begin nav c)))
    = attempts fallbackConstraints (trace c)
  /\ attempts preferredConstraints (trace (fst (startCamera_begin nav c)))
     = attempts preferredConstraints (trace c)
       + waitingPreferred (suspendedCamera (snd (startCamera_begin nav c))).
Proof.
  unfold startCamera_begin. destruct (mediaDevices nav); cbn [negb fst snd].
  - cbn [emit set_trace trace]. rewrite !attempts_app, !stopCamera_attempts.
    change (trace (c |> setCameraNotFound false |> setError None)) with (trace c).
    split; [|reflexivity].
    change (attempts fallbackConstraints [GetUserMedia preferredConstraints]) with 0.
    lia.
  - change (trace (c |> setCameraNotFound false |> setError None
                     |> setError (Some "Your browser does not support camera access.")
                     |> setCameraNotFound true))
      with (trace c).
    change (waitingPreferred (suspendedCamera false)) with 0.
    split; lia.
Qed.

Lemma attachStream_attempts (k : MediaStreamConstraints) (stream : MediaStream)
    (c : Component) :
  attempts k (trace (attachStream stream c)) = attempts k (trace c).
Proof. now rewrite attachStream_trace. Qed.

Ltac count_requests :=
  repeat match goal with
         | |- context [attempts ?k (?x :: ?l)] =>
             let n := eval cbv in (attempts k (x :: l)) in
             change (attempts k (x :: l)) with n
         end.

Lemma step_requestsBalanced (s s' : Session) :
  step s s' ->
  attempts fallbackConstraints (trace (view s)) + waitingPreferred (cameras s)
    <= attempts preferredConstraints (trace (view s)) ->
  attempts fallbackConstraints (trace (view s')) + waitingPreferred (cameras s')
    <= attempts preferredConstraints (trace (view s')).
Proof.
  intros Hstep H.
  destruct Hstep as [s context frame c' Hclick | s | s pre seen post dataURL _
                    | s pre seen post nav r _ | s nav _ | s pre post r Hc
                    | s pre post r Hc | s];
    cbn [view cameras].
  - unfold clickCapture in Hclick.
    destruct (showsCapturePanel (view s) && negb (captureDisabled (view s)));
      [|discriminate].
    injection Hclick as <-. unfold handleCapture.
    destruct (videoRef (view s)), (canvasRef (view s)), context;
      rewrite ?attempts_begin; exact H.
  - exact H.
  - cbn [handleFileUpload]. now rewrite !attempts_begin.
  - unfold processImage_settle. destruct r as [v|e]; cbn [fst snd].
    + rewrite waitingPreferred_app. cbn -[attempts waitingPreferred] in *;
      rewrite ?waitingPreferred_cons, ?waitingPreferred_nil in *; lia.
    + destruct seen; cbn [negb].
      * cbn [fst snd]. rewrite waitingPreferred_app. cbn -[attempts waitingPreferred] in *;
      rewrite ?waitingPreferred_cons, ?waitingPreferred_nil in *; lia.
      * pose proof (startCamera_begin_requests nav
                      (view s |> setError (Some analysisFailedMessage))) as [H1 H2].
        destruct (startCamera_begin nav (view s |> setError (Some analysisFailedMessage)))
          as [c1 b]. cbn [fst snd] in *.
        change (attempts fallbackConstraints (trace (c1 |> setLoading false)))
          with (attempts fallbackConstraints (trace c1)).
        change (attempts preferredConstraints (trace (c1 |> setLoading false)))
          with (attempts preferredConstraints (trace c1)).
        rewrite waitingPreferred_app, H1, H2.
        change (trace (view s |> setError (Some analysisFailedMessage)))
          with (trace (view s)). lia.
  - unfold handleReset. destruct (cameraNotFound (view s)); cbn [negb fst snd].
    + rewrite waitingPreferred_app. cbn -[attempts waitingPreferred] in *;
      rewrite ?waitingPreferred_cons, ?waitingPreferred_nil in *; lia.
    + pose proof (startCamera_begin_requests nav
                    (view s |> setCapturedImage None |> setResult JNull |> setError None))
        as [H1 H2].
      rewrite waitingPreferred_app, H1, H2.
      change (trace (view s |> setCapturedImage None |> setResult JNull |> setError None))
        with (trace (view s)). lia.
  - rewrite Hc, waitingPreferred_app in H.
    destruct r as [stream|e]; cbn [startCamera_preferred fst snd].
    + rewrite !attachStream_attempts, !waitingPreferred_app. cbn -[attempts waitingPreferred] in *;
      rewrite ?waitingPreferred_cons, ?waitingPreferred_nil in *; lia.
    + cbn [emit set_trace trace]. rewrite !attempts_app, !waitingPreferred_app.
      count_requests; cbn -[attempts waitingPreferred] in *;
      rewrite ?waitingPreferred_cons, ?waitingPreferred_nil in *; lia.
  - rewrite Hc, waitingPreferred_app in H.
    destruct r as [stream|e]; cbn [startCamera_fallback].
    + rewrite !attachStream_attempts, !waitingPreferred_app.
      count_requests; cbn -[attempts waitingPreferred] in *;
      rewrite ?waitingPreferred_cons, ?waitingPreferred_nil in *; lia.
    + cbn [emit set_trace trace setCameraNotFound setError].
      rewrite !attempts_app, !waitingPreferred_app.
      count_requests; cbn -[attempts waitingPreferred] in *;
      rewrite ?waitingPreferred_cons, ?waitingPreferred_nil in *; lia.
  - unfold commit. destruct (showsVideo (view s)); [destruct (videoRef (view s))|];
      exact H.
Qed.

End RequestCounting.

(** X19: however handlers and promises interleave, over the whole
    life of the scanner the fallback camera request is made at most as
    often as preferred requests have already been answered: counting
    the [getUserMedia] calls made so far, those with the fallback
    constraints plus the preferred ones still unanswered never exceed
    those with the preferred constraints. *)
Theorem fallback_follows_preferred :
  forall s : ScannerSession.Session,
    ScannerSession.reachable s ->
    attempts fallbackConstraints (trace (ScannerSession.view s))
      + waitingPreferred (ScannerSession.cameras s)
    <= attempts preferredConstraints (trace (ScannerSession.view s)).
Proof.
  intros s Hs. induction Hs as [nav | s s' _ IH Hstep].
  - unfold ScannerSession.onMount.
    pose proof (startCamera_begin_requests nav mounted) as [H1 H2].
    destruct (startCamera_begin nav mounted) as [c b].
    cbn [fst snd ScannerSession.view ScannerSession.cameras] in *.
    rewrite H1, H2. cbn. lia.
  - exact (step_requestsBalanced _ _ Hstep IH).
Qed.

Lemma fallback_follows_preferred_witness :
  attempts fallbackConstraints
    (trace (fst (startCamera_preferred (Rejected (mkError "OverconstrainedError" "facingMode"))
                   (fst (startCamera_begin frontCameraOnly mounted)))))
  + waitingPreferred [ScannerSession.AwaitingFallback]
  <= attempts preferredConstraints
       (trace (fst (startCamera_preferred
                      (Rejected (mkError "OverconstrainedError" "facingMode"))
                      (fst (startCamera_begin frontCameraOnly mounted))))).
Proof.
  apply (fallback_follows_preferred
           (ScannerSession.mkSession
              (fst (startCamera_preferred
                      (Rejected (mkError "OverconstrainedError" "facingMode"))
                      (fst (startCamera_begin frontCameraOnly mounted))))
              [] [] [ScannerSession.AwaitingFallback])).
  apply (ScannerSession.reach_step (ScannerSession.onMount frontCameraOnly)).
  - apply ScannerSession.reach_mount.
  - apply (ScannerSession.step_preferred (ScannerSession.onMount frontCameraOnly)
             [] [] (Rejected (mkError "OverconstrainedError" "facingMode"))).
    reflexivity.
Defined.

(** ** Single flight *)

Section CaptureOnly.

Import ScannerSession.

Lemma onMount_reads (nav : Navigator) : reads (onMount nav) = [].
Proof. unfold onMount. now destruct (startCamera_begin nav mounted). Qed.

Lemma clickCapture_not_loading (context : bool) (frame : string) (c c' : Component) :
  clickCapture context frame c = Some c' -> loading c = false.
Proof.
  unfold clickCapture, showsCapturePanel. destruct (loading c); [|reflexivity].
  cbn [negb]. now rewrite andb_false_r, !andb_false_l.
Qed.

Lemma handleReset_loading (seen : bool) (nav : Navigator) (c : Component) :
  loading (fst (handleReset seen nav c)) = loading c.
Proof.
  unfold handleReset. destruct seen; cbn [negb fst]; [reflexivity|].
  now rewrite startCamera_begin_loading.
Qed.

(** When every picture comes from the capture button, one call is
    awaited while [loading] is set and none otherwise. *)
Lemma captureOnly_inFlight (s : Session) :
  reachableByCapture s ->
  reads s = []
  /\ List.length (analyses s) = if loading (view s) then 1 else 0.
Proof.
  induction 1 as [nav | s s' _ [IHr IH] Hstep Hreads].
  - split; [apply onMount_reads|].
    rewrite onMount_analyses, onMount_view, startCamera_begin_loading. reflexivity.
  - split; [exact Hreads|].
    destruct Hstep as [s context frame c' Hclick | s | s pre seen post dataURL Hr
                      | s pre seen post nav r Ha | s nav _ | s pre post r _
                      | s pre post r _ | s];
      cbn [view analyses reads] in *.
    + pose proof (clickCapture_not_loading _ _ _ _ Hclick) as Hl.
      rewrite Hl in IH. apply length_zero_iff_nil in IH. rewrite IH.
      unfold clickCapture in Hclick.
      destruct (showsCapturePanel (view s) && negb (captureDisabled (view s)));
        [|discriminate].
      injection Hclick as <-. unfold handleCapture.
      destruct (videoRef (view s)), (canvasRef (view s)), context;
        rewrite ?newCalls_begin, ?newCalls_same, ?Hl; try reflexivity;
        destruct (processImage_begin_fields frame (view s)) as [_ [-> _]]; reflexivity.
    + apply app_eq_nil in Hreads. destruct Hreads as [_ Hreads]. discriminate.
    + rewrite IHr in Hr. now destruct pre.
    + rewrite processImage_settle_loading. rewrite Ha, length_app in IH.
      cbn [List.length] in IH. rewrite length_app.
      destruct (loading (view s)); lia.
    + now rewrite handleReset_loading.
    + destruct r as [stream|e]; cbn [startCamera_preferred fst];
        [now rewrite attachStream_loading|exact IH].
    + destruct r as [stream|e]; cbn [startCamera_fallback];
        [now rewrite attachStream_loading|exact IH].
    + unfold commit. destruct (showsVideo (view s)); [destruct (videoRef (view s))|];
        exact IH.
Qed.

End CaptureOnly.




(** ** The camera during the round trip *)

Section RoundTrip.

Import ScannerSession.

Lemma entering_is_quiet (base64 : string) (c : Component) (s : Session) :
  view s = processImage_begin base64 c -> cameras s = [] -> roundTripQuiet s.
Proof.
  intros Hv Hc. unfold roundTripQuiet. rewrite Hv.
  destruct (processImage_begin_fields base64 c)
    as [_ [Hl [He [Hr [Hs [Hrd _]]]]]].
  rewrite Hl, He, Hr, Hs, Hrd. repeat split. exact Hc.
Qed.

(** A step that leaves [loading] set keeps the view without a stream
    and without a suspended [startCamera]. *)
Lemma roundTripQuiet_step (s s' : Session) :
  roundTripQuiet s -> step s s' -> loading (view s') = true -> roundTripQuiet s'.
Proof.
  intros [Hl [Hc [Hs [Hrd [Hres Herr]]]]] Hstep Hl'.
  destruct Hstep as [s context frame c' Hclick | s | s pre seen post dataURL _
                    | s pre seen post nav r _ | s nav Hshown | s pre post r Hcam
                    | s pre post r Hcam | s];
    cbn [view cameras] in *.
  - rewrite (clickCapture_not_loading _ _ _ _ Hclick) in Hl. discriminate.
  - repeat split; assumption.
  - exact (entering_is_quiet dataURL (view s)
             (mkSession (processImage_begin dataURL (view s)) (pre ++ post)
                (analyses s ++ [seen]) (cameras s))
             eq_refl Hc).
  - rewrite processImage_settle_loading in Hl'. discriminate.
  - unfold showsResultPanel, showsRetryCamera in Hshown.
    rewrite Hres, Herr in Hshown. discriminate.
  - rewrite Hc in Hcam. now destruct pre.
  - rewrite Hc in Hcam. now destruct pre.
  - unfold roundTripQuiet. cbn [view cameras]. unfold commit.
    destruct (showsVideo (view s)); [destruct (videoRef (view s))|];
      repeat split; assumption.
Qed.

Lemma roundTripQuiet_steps (s s' : Session) :
  roundTripQuiet s -> stepsWhileLoading s s' -> roundTripQuiet s'.
Proof.
  intros H Hsteps. induction Hsteps as [s | s s' s'' _ IH Hstep Hl]; [exact H|].
  exact (roundTripQuiet_step _ _ (IH H) Hstep Hl).
Qed.

End RoundTrip.

(** C6, counterexample: a file is chosen and read while the camera
    request made on mount is still awaited, and the request is then
    answered.  In the state reached the analysis is still awaited and
    [loading] is set, yet the view holds the stream, reports the camera
    ready, and has stopped none of its tracks. *)
Lemma camera_opens_during_round_trip :
  ScannerSession.reachable lateCameraSession
  /\ loading (ScannerSession.view lateCameraSession) = true
  /\ ScannerSession.analyses lateCameraSession = [false]
  /\ streamRef (ScannerSession.view lateCameraSession) = Some (mkStream [1; 2])
  /\ isCameraReady (ScannerSession.view lateCameraSession) = true
  /\ trace (ScannerSession.view lateCameraSession)
     = [GetUserMedia preferredConstraints; AnalyzeParkingSign sampleImage].
Proof.
  split; [|repeat split].
  apply (ScannerSession.reach_step
           (ScannerSession.mkSession uploadedEarly [] [false]
              [ScannerSession.AwaitingPreferred])).
  - apply (ScannerSession.reach_step
             (ScannerSession.mkSession
                (fst (startCamera_begin workingCamera mounted)) [false] []
                [ScannerSession.AwaitingPreferred])).
    + apply (ScannerSession.reach_step (ScannerSession.onMount workingCamera));
        [apply ScannerSession.reach_mount|].
      exact (ScannerSession.step_choose (ScannerSession.onMount workingCamera)).
    + exact (ScannerSession.step_loaded
               (ScannerSession.mkSession
                  (fst (startCamera_begin workingCamera mounted)) [false] []
                  [ScannerSession.AwaitingPreferred])
               [] false [] sampleImage eq_refl).
  - exact (ScannerSession.step_preferred
             (ScannerSession.mkSession uploadedEarly [] [false]
                [ScannerSession.AwaitingPreferred])
             [] [] (Fulfilled (mkStream [1; 2])) eq_refl).
Qed.

(** C6, as amended: [processImage] stops every track of the stream it
    holds and clears the handle before it calls [analyzeParkingSign],
    whose call is the last thing it does before suspending, in the
    loading state and with no stream held; capture and upload enter
    that state through [processImage] only.  When no [startCamera] is
    suspended at that moment, then for as long as [loading] stays set,
    whatever handlers run and promises settle, the view holds no stream
    and no [startCamera] gets suspended. *)
Theorem camera_released_for_the_round_trip :
  forall (base64 : string) (c : Component),
    trace (processImage_begin base64 c)
      = (trace c ++ map TrackStop (heldTracks c) ++ [AnalyzeParkingSign base64])%list
    /\ streamRef (processImage_begin base64 c) = None
    /\ heldTracks (processImage_begin base64 c) = []
    /\ isCameraReady (processImage_begin base64 c) = false
    /\ loading (processImage_begin base64 c) = true
    /\ (forall context frame,
          handleCapture context frame c = c
          \/ handleCapture context frame c = processImage_begin frame c)
    /\ (forall file,
          handleFileUpload file c = c
          \/ exists dataURL, handleFileUpload file c = processImage_begin dataURL c)
    /\ (forall s s' : ScannerSession.Session,
          ScannerSession.view s = processImage_begin base64 c ->
          ScannerSession.cameras s = [] ->
          ScannerSession.stepsWhileLoading s s' ->
          streamRef (ScannerSession.view s') = None
          /\ isCameraReady (ScannerSession.view s') = false
          /\ ScannerSession.cameras s' = []).
Proof.
  intros base64 c.
  destruct (processImage_releases_camera_first base64 c)
    as [H1 [H2 [H3 [H4 [H5 [_ [_ [_ [H6 H7]]]]]]]]].
  do 7 (split; [assumption|]).
  intros s s' Hv Hc Hsteps.
  destruct (roundTripQuiet_steps s s' (entering_is_quiet base64 c s Hv Hc) Hsteps)
    as [_ [Hc' [Hs' [Hr' _]]]].
  repeat split; assumption.
Qed.

Lemma camera_released_for_the_round_trip_witness :
  streamRef (ScannerSession.commit (processImage_begin sampleImage cameraReady)) = None
  /\ isCameraReady (ScannerSession.commit (processImage_begin sampleImage cameraReady))
     = false.
Proof.
  destruct (camera_released_for_the_round_trip sampleImage cameraReady)
    as [_ [_ [_ [_ [_ [_ [_ H]]]]]]].
  destruct (H (ScannerSession.mkSession (processImage_begin sampleImage cameraReady)
                 [] [false] [])
              (ScannerSession.mkSession
                 (ScannerSession.commit (processImage_begin sampleImage cameraReady))
                 [] [false] [])
              eq_refl eq_refl) as [Hs [Hr _]].
  - apply (ScannerSession.loading_step _
             (ScannerSession.mkSession (processImage_begin sampleImage cameraReady)
                [] [false] [])).
    + apply ScannerSession.loading_refl.
    + exact (ScannerSession.step_commit
               (ScannerSession.mkSession (processImage_begin sampleImage cameraReady)
                  [] [false] [])).
    + reflexivity.
  - split; [exact Hs|exact Hr].
Defined.

(** ** The application *)

Lemma onTabChange_matches (nav : Navigator) (tab : App.Tab) (st : App.State) :
  App.childMatches st = true -> App.childMatches (App.onTabChange nav tab st) = true.
Proof.
  intros H. unfold App.onTabChange.
  destruct (App.tab_eqb tab (App.activeTab st)); [exact H|].
  destruct tab; reflexivity.
Qed.

Lemma app_step_matches (trim : string -> string) (nav : Navigator) (st st' : App.State) :
  App.step trim nav st st' -> App.childMatches st = true -> App.childMatches st' = true.
Proof.
  intros Hstep H. destruct Hstep as [tab st | st s s' Hc _ | st s s' Hc _].
  - now apply onTabChange_matches.
  - unfold App.childMatches in *. rewrite Hc in H. cbn.
    destruct (App.activeTab st); [reflexivity|discriminate].
  - unfold App.childMatches in *. rewrite Hc in H. cbn.
    destruct (App.activeTab st); [discriminate|reflexivity].
Qed.

Lemma fresh_scanner (nav : Navigator) :
  capturedImage (ScannerSession.view (ScannerSession.onMount nav)) = None
  /\ result (ScannerSession.view (ScannerSession.onMount nav)) = JNull
  /\ streamRef (ScannerSession.view (ScannerSession.onMount nav)) = None
  /\ ScannerSession.analyses (ScannerSession.onMount nav) = [].
Proof.
  rewrite onMount_view, onMount_analyses. unfold startCamera_begin.
  destruct (mediaDevices nav); cbn [negb fst]; repeat split.
Qed.

(** X18: in every state the application reaches, by tab changes and by
    whatever the mounted view does meanwhile, the view mounted is the
    one of the active tab, and choosing the active tab again changes
    nothing.  Leaving the scan tab stops every track the scanner holds
    and mounts a fresh editor; coming back mounts a new scanner that
    starts over with the effect: no picture, no result, no stream and
    no analysis awaited, whatever the scanner that was left had.
    Leaving the edit tab and coming back mounts a fresh editor
    likewise. *)
Theorem tab_change_remounts_views :
  forall (trim : string -> string) (nav : Navigator) (st : App.State),
    App.reachable trim nav st ->
    App.childMatches st = true
    /\ App.onTabChange nav (App.activeTab st) st = st
    /\ (forall s, App.child st = App.Scanner s ->
          (forall t, In t (heldTracks (ScannerSession.view s)) ->
                     In (TrackStop t) (App.past (App.onTabChange nav App.edit st)))
          /\ App.child (App.onTabChange nav App.edit st)
             = App.Editor (EditView.mkSession EditView.mounted 0)
          /\ App.child (App.onTabChange nav App.scan (App.onTabChange nav App.edit st))
             = App.Scanner (ScannerSession.onMount nav))
    /\ (forall s, App.child st = App.Editor s ->
          App.child (App.onTabChange nav App.edit (App.onTabChange nav App.scan st))
          = App.Editor (EditView.mkSession EditView.mounted 0))
    /\ capturedImage (ScannerSession.view (ScannerSession.onMount nav)) = None
    /\ result (ScannerSession.view (ScannerSession.onMount nav)) = JNull
    /\ streamRef (ScannerSession.view (ScannerSession.onMount nav)) = None
    /\ ScannerSession.analyses (ScannerSession.onMount nav) = [].
Proof.
  intros trim nav st Hreach.
  assert (Hm : App.childMatches st = true).
  { induction Hreach as [|st st' _ IH Hstep]; [reflexivity|].
    exact (app_step_matches trim nav _ _ Hstep IH). }
  split; [exact Hm|]. split; [|split; [|split]].
  - unfold App.onTabChange. destruct (App.activeTab st); reflexivity.
  - intros s Hc. unfold App.childMatches in Hm. rewrite Hc in Hm.
    destruct (App.activeTab st) eqn:Ht; [|discriminate].
    unfold App.onTabChange. rewrite Ht, Hc. cbn.
    repeat split.
    intros t Hin. apply in_or_app. right.
    unfold ScannerSession.unmount. cbn.
    exact (stopCamera_stops_held (ScannerSession.view s) t Hin).
  - intros s Hc. unfold App.childMatches in Hm. rewrite Hc in Hm.
    destruct (App.activeTab st) eqn:Ht; [discriminate|].
    unfold App.onTabChange. rewrite Ht. reflexivity.
  - exact (fresh_scanner nav).
Qed.

Lemma tab_change_remounts_views_witness :
  heldTracks liveView = [1; 2]
  /\ In (TrackStop 1) (App.past (App.onTabChange workingCamera App.edit appLive))
  /\ In (TrackStop 2) (App.past (App.onTabChange workingCamera App.edit appLive))
  /\ result resultShown = shapedAnalysisSample
  /\ capturedImage resultShown = Some sampleImage
  /\ App.child (App.onTabChange workingCamera App.scan
                  (App.onTabChange workingCamera App.edit appWithResult))
     = App.Scanner (ScannerSession.onMount workingCamera)
  /\ result (ScannerSession.view (ScannerSession.onMount workingCamera)) = JNull.
Proof.
  assert (Hlive : App.reachable Reference.trim workingCamera appLive).
  { apply (App.reach_step Reference.trim workingCamera (App.initial workingCamera));
      [apply App.reach_initial|].
    exact (App.step_scanner Reference.trim workingCamera (App.initial workingCamera)
             (ScannerSession.onMount workingCamera)
             (ScannerSession.mkSession liveView [] [] [])
             eq_refl
             (ScannerSession.step_preferred (ScannerSession.onMount workingCamera)
                [] [] (Fulfilled (mkStream [1; 2])) eq_refl)). }
  assert (Hresult : App.reachable Reference.trim workingCamera appWithResult).
  { apply (App.reach_step Reference.trim workingCamera
             (App.mkState App.scan
                (App.Scanner
                   (ScannerSession.mkSession
                      (handleFileUpload (Some sampleImage) liveView) [] [false] []))
                [])).
    - apply (App.reach_step Reference.trim workingCamera
               (App.mkState App.scan
                  (App.Scanner (ScannerSession.mkSession liveView [false] [] [])) [])).
      + apply (App.reach_step Reference.trim workingCamera appLive); [exact Hlive|].
        exact (App.step_scanner Reference.trim workingCamera appLive
                 (ScannerSession.mkSession liveView [] [] [])
                 (ScannerSession.mkSession liveView [false] [] [])
                 eq_refl
                 (ScannerSession.step_choose
                    (ScannerSession.mkSession liveView [] [] []))).
      + exact (App.step_scanner Reference.trim workingCamera
                 (App.mkState App.scan
                    (App.Scanner (ScannerSession.mkSession liveView [false] [] [])) [])
                 (ScannerSession.mkSession liveView [false] [] [])
                 (ScannerSession.mkSession
                    (handleFileUpload (Some sampleImage) liveView) [] [false] [])
                 eq_refl
                 (ScannerSession.step_loaded
                    (ScannerSession.mkSession liveView [false] [] [])
                    [] false [] sampleImage eq_refl)).
    - exact (App.step_scanner Reference.trim workingCamera
               (App.mkState App.scan
                  (App.Scanner
                     (ScannerSession.mkSession
                        (handleFileUpload (Some sampleImage) liveView) [] [false] []))
                  [])
               (ScannerSession.mkSession
                  (handleFileUpload (Some sampleImage) liveView) [] [false] [])
               (ScannerSession.mkSession resultShown [] [] [])
               eq_refl
               (ScannerSession.step_settle
                  (ScannerSession.mkSession
                     (handleFileUpload (Some sampleImage) liveView) [] [false] [])
                  [] false [] workingCamera (Fulfilled shapedAnalysisSample) eq_refl)). }
  destruct (tab_change_remounts_views Reference.trim workingCamera appLive Hlive)
    as [_ [_ [Hleave _]]].
  destruct (Hleave (ScannerSession.mkSession liveView [] [] []) eq_refl) as [Hstops _].
  destruct (tab_change_remounts_views Reference.trim workingCamera appWithResult Hresult)
    as [_ [_ [Hleave' [_ [_ [Hfresh _]]]]]].
  destruct (Hleave' (ScannerSession.mkSession resultShown [] [] []) eq_refl)
    as [_ [_ Hback]].
  split; [reflexivity|]. split; [apply Hstops; now left|].
  split; [apply Hstops; right; now left|].
  split; [reflexivity|]. split; [reflexivity|]. split; [exact Hback|exact Hfresh].
Defined.
